(** * zepto/web: the application core of [web/app.go]

    A shallow embedding of [App] (construction, session set-up, start-up,
    route registration and the per-request dispatch function with its panic
    guard), and the properties its specification states about it.

    Conventions.
    - A Go [string] is a Rocq [string]; the empty string is [EmptyString].
    - Side effects are explicit.  Start-up code runs in the monad [Proc],
      which records the calls made to the collaborators ([Step]) and ends
      normally, by [os.Exit] (what [logger.Fatalf] does) or by a panic.
      Request-time code threads a [World]: the calls made so far on the
      request's [http.ResponseWriter] and the other effects of user code,
      oldest first.
    - The packages [app.go] imports but this repository does not contain
      ([path], [fmt], gorilla's [mux] and [sessions], pongo2), and the
      declarations of package [web] that live in other files
      ([MiddlewareStack], [Router], [Options], ...), are either modelled
      after the Go documentation or taken as the fields of [Externals]. *)

From Stdlib Require Import String Ascii List Bool Arith ZArith Lia DecimalString.
Import ListNotations.
Local Open Scope string_scope.
Local Open Scope nat_scope.
Local Open Scope list_scope.

(* ================================================================== *)
(** ** Go's [path] package: [Clean] and [Join]                        *)
(* ================================================================== *)

Module Path.

(** [r == n || path[r] == '/'] *)
Definition at_sep (p : list ascii) : bool :=
  match p with
  | [] => true
  | c :: _ => Ascii.eqb c "/"
  end.

(** The inner loop of the [..] case:
    [for out.w > dotdot && out.index(out.w) != '/' { out.w-- }]. *)
Fixpoint backtrack (fuel : nat) (out : list ascii) (w dotdot : nat) : nat :=
  match fuel with
  | O => w
  | S fuel' =>
      if (dotdot <? w) && negb (Ascii.eqb (nth w out "/"%char) "/")
      then backtrack fuel' out (w - 1) dotdot
      else w
  end.

(** [for ; r < n && path[r] != '/'; r++ { out.append(path[r]) }]:
    the element copied, and what is left of the path. *)
Fixpoint copy_element (p : list ascii) : list ascii * list ascii :=
  match p with
  | [] => ([], [])
  | c :: rest =>
      if Ascii.eqb c "/" then ([], p)
      else let '(e, r) := copy_element rest in (c :: e, r)
  end.

(** The main loop of [Clean].  [path] is [path[r:]], [out] the bytes written
    so far ([out.w] is its length).  Every turn consumes at least one byte,
    so [S (length path)] turns are enough. *)
Fixpoint clean_loop (fuel : nat) (rooted : bool) (path out : list ascii)
         (dotdot : nat) : list ascii :=
  match fuel with
  | O => out
  | S fuel' =>
      match path with
      | [] => out
      | c :: r1 =>
          if Ascii.eqb c "/" then
            (* empty path element *)
            clean_loop fuel' rooted r1 out dotdot
          else if Ascii.eqb c "." && at_sep r1 then
            (* . element *)
            clean_loop fuel' rooted r1 out dotdot
          else if Ascii.eqb c "." &&
                  match r1 with
                  | c2 :: r2 => Ascii.eqb c2 "." && at_sep r2
                  | [] => false
                  end then
            (* .. element: remove to last / *)
            let r2 := tl r1 in
            if dotdot <? length out then
              (* can backtrack *)
              let w := backtrack (length out) out (length out - 1) dotdot in
              clean_loop fuel' rooted r2 (firstn w out) dotdot
            else if negb rooted then
              (* cannot backtrack, but not rooted, so append .. element *)
              let out1 := if 0 <? length out then out ++ ["/"%char] else out in
              let out2 := out1 ++ ["."%char; "."%char] in
              clean_loop fuel' rooted r2 out2 (length out2)
            else clean_loop fuel' rooted r2 out dotdot
          else
            (* real path element: add slash if needed, copy element *)
            let out1 :=
              if (rooted && negb (length out =? 1)) ||
                 (negb rooted && negb (length out =? 0))
              then out ++ ["/"%char] else out in
            let '(e, rest) := copy_element path in
            clean_loop fuel' rooted rest (out1 ++ e) dotdot
      end
  end.

(** [path.Clean]. *)
Definition Clean (path : string) : string :=
  match list_ascii_of_string path with
  | [] => "."
  | (c :: _) as p =>
      let rooted := Ascii.eqb c "/" in
      let out :=
        if rooted then clean_loop (S (length p)) true (tl p) ["/"%char] 1
        else clean_loop (S (length p)) false p [] 0 in
      match out with
      | [] => "."
      | _ => string_of_list_ascii out
      end
  end.

(** [path.Join]: the elements from the first non-empty one on, joined by
    slashes and cleaned; [""] when every element is empty. *)
Fixpoint Join (elem : list string) : string :=
  match elem with
  | [] => ""
  | e :: rest =>
      if String.eqb e "" then Join rest
      else Clean (String.concat "/" elem)
  end.

(** A path element [Clean] keeps as it is: not empty, without a slash, and
    neither [.] nor [..]. *)
Definition plain (e : list ascii) : bool :=
  negb (existsb (Ascii.eqb "/") e) &&
  match e with
  | [] => false
  | [c] => negb (Ascii.eqb c ".")
  | [c1; c2] => negb (Ascii.eqb c1 "." && Ascii.eqb c2 ".")
  | _ => true
  end.

(** The rooted path [/e1/e2/.../en] of the elements [e1 ... en]. *)
Definition rooted (elems : list (list ascii)) : list ascii :=
  flat_map (fun e => "/"%char :: e) elems.

(** What the main loop of [Clean] has written after an element [e] of a
    rooted path, [out] being what it had written before: the slash, if
    needed, and the element. *)
Definition sep (out : list ascii) : list ascii :=
  if length out =? 1 then out else out ++ ["/"%char].

Definition place (out e : list ascii) : list ascii := sep out ++ e.

End Path.

(* ================================================================== *)
(** ** Go's [fmt] package, called with a format and no operand        *)
(* ================================================================== *)

Module Fmt.

(** Whether the byte ['%'] occurs in a string. *)
Fixpoint has_percent (s : string) : bool :=
  match s with
  | EmptyString => false
  | String c rest => Ascii.eqb c "%" || has_percent rest
  end.

(** What [fmt.Sprintf(format)] and [fmt.Errorf(format)] print when they are
    given no operand, for formats whose directives are a bare verb: text is
    copied up to the next ['%']; ["%%"] prints a percent sign; a verb [c]
    finds no operand and prints ["%!c(MISSING)"]; a ['%'] that ends the
    format prints ["%!(NOVERB)"].  Directives with flags, a width, a
    precision or an argument index, and verbs outside ASCII, are beyond this
    function: the development relies on [fmt] only through [Sprintf0_ok]
    below, which it satisfies. *)
Fixpoint sprintf0 (format : string) : string :=
  match format with
  | EmptyString => EmptyString
  | String c rest =>
      if Ascii.eqb c "%" then
        match rest with
        | EmptyString => "%!(NOVERB)"
        | String verb rest' =>
            if Ascii.eqb verb "%" then String "%" (sprintf0 rest')
            else ("%!" ++ String verb "(MISSING)" ++ sprintf0 rest')%string
        end
      else String c (sprintf0 rest)
  end.

(** The two facts about [fmt]'s formatting this development uses:
    a format without ['%'] is printed as it is, and a ['%'] at the very end
    of such a format prints the missing-verb marker. *)
Record Sprintf0_ok (sprintf : string -> string) : Prop := {
  sprintf_plain :
    forall s, has_percent s = false -> sprintf s = s;
  sprintf_noverb :
    forall s, has_percent s = false ->
              sprintf (s ++ "%")%string = (s ++ "%!(NOVERB)")%string
}.

End Fmt.

(* ================================================================== *)
(** ** Package [web]                                                  *)
(* ================================================================== *)

Module Web.

(** *** Values *)

(** A value of Go's [error] interface: either what [errors.New] and
    [fmt.Errorf] build, or a value of any other type with an [Error] method
    (its dynamic type's name and the text [Error()] returns). *)
Inductive error : Type :=
| ErrorString (s : string)
| OtherError (dynType : string) (text : string).

Definition Error (e : error) : string :=
  match e with
  | ErrorString s => s
  | OtherError _ text => text
  end.

(** A non-nil Go value, as far as the type switch of the panic guard tells
    values apart: an [error], a [string], or a value of another type.
    [VOther text] stands for any value not listed, [text] being what
    [fmt.Sprint] prints for it.  (What [recover] returns after [panic(nil)]
    depends on the Go release, so nil is left out.) *)
Inductive GoValue : Type :=
| VError (e : error)
| VString (s : string)
| VInt (n : Z)
| VBool (b : bool)
| VOther (text : string).

(** [fmt.Sprint(v)]: the default text of a value. *)
Definition Sprint (v : GoValue) : string :=
  match v with
  | VError e => Error e
  | VString s => s
  | VInt n => NilZero.string_of_int (Z.to_int n)
  | VBool true => "true"
  | VBool false => "false"
  | VOther text => text
  end.

(** *** Requests, responses and their effects *)

Record Request : Type := {
  Method : string;
  URLPath : string;
  CookieHeader : list (string * string)
}.

(** An [http.ResponseWriter], by the identity of the object. *)
Definition ResponseWriter : Type := nat.

(** One effect of request-time code. *)
Inductive Event : Type :=
| WriteHeader (res : ResponseWriter) (statusCode : Z)
| Write (res : ResponseWriter) (body : string)
| RenderDevelopmentError (res : ResponseWriter) (req : Request) (err : error)
| Effect (label : string).

(** The effects so far, oldest first. *)
Definition World : Type := list Event.

(** How a call of a handler ends: it returns its [error] (nil is [None]), or
    it panics with a value. *)
Inductive Result : Type :=
| Return (err : option error)
| Panicking (v : GoValue).

(** How a call that yields a value ends: with the value, or in a panic. *)
Inductive Attempt (A : Type) : Type :=
| Ok (a : A)
| Panicked (v : GoValue).
Arguments Ok {A} a.
Arguments Panicked {A} v.

(** *** The collaborators' values *)

Definition Logger : Type := nat.
Definition Broker : Type := nat.

(** A [renderer.Engine]: its name, and what its [Init()] returns. *)
Record Engine : Type := {
  engine_name : string;
  engine_Init : option error
}.

(** gorilla's [*sessions.Session]. *)
Record GSession : Type := {
  gs_name : string;
  gs_Values : list (string * string);
  gs_IsNew : bool
}.

(** A [sessions.Store]: the cookie store [sessions.NewCookieStore] builds
    from a secret, or a store the application was given; of the latter only
    its [Get] method matters to [app.go]. *)
Inductive SessionStore : Type :=
| CookieStore (keyPairs : string)
| SuppliedStore (get : Request -> string -> GSession * option error).

Record Session : Type := {
  gSession : GSession;
  session_req : Request;
  session_res : ResponseWriter
}.

Record Cookies : Type := {
  cookies_res : ResponseWriter;
  cookies_req : Request
}.

(** The request context, with the fields [app.go] assigns. *)
Record DefaultContext : Type := {
  ctx_logger : option Logger;
  ctx_broker : option Broker;
  ctx_res : option ResponseWriter;
  ctx_req : option Request;
  ctx_cookies : option Cookies;
  ctx_session : option Session;
  ctx_tmplEngine : option Engine
}.

(** [type RouteHandler func(ctx Context) error] *)
Definition RouteHandler : Type := DefaultContext -> World -> World * Result.

(** [type MiddlewareFunc func(RouteHandler) RouteHandler] *)
Definition MiddlewareFunc : Type := RouteHandler -> RouteHandler.

(** The [Resource] interface. *)
Record ResourceInterface : Type := {
  List : RouteHandler;
  Show : RouteHandler;
  Create : RouteHandler;
  Update : RouteHandler;
  Destroy : RouteHandler
}.

(** The handler of a registration on the [mux.Router]: the static file
    server [NewApp] installs, or the dispatch function [HandleMethod] builds
    around a route handler. *)
Inductive Endpoint : Type :=
| StaticFiles (prefix dir : string)
| Dispatch (routeHandler : RouteHandler).

(** A registration made on the [mux.Router]: the path template, whether it
    was given with [PathPrefix] rather than [Path], the methods and the
    handler, all as the application passes them.  What the router makes of
    a registration (it upper-cases the methods and refuses some templates)
    is [muxKeeps] below. *)
Record Route : Type := {
  route_path : string;
  route_isPrefix : bool;
  route_methods : list string;
  route_endpoint : Endpoint
}.

(** *** What lies outside [app.go] *)

(** The parts of package [web] and of the imported packages that [app.go]
    uses and does not define. *)
Class Externals : Type := {
  (** the type of [MiddlewareStack.skips], its nil value, and whether the
      skip rules omit the middleware at a position of the stack for a
      terminal handler *)
  Skips : Type;
  nilSkips : Skips;
  skipped : Skips -> nat -> RouteHandler -> bool;
  (** [*Router], the sub-routers of the application *)
  Router : Type;
  (** [fmt.Errorf(format)]: the text printed for a format given no operand *)
  Sprintf0 : string -> string;
  (** the [Get] method of the [sessions.CookieStore] built from a secret *)
  cookieStoreGet : string -> Request -> string -> GSession * option error;
  (** [pongo2.NewPongo2Engine(TemplateDir(d), Ext(e), AutoReload(b))] *)
  NewPongo2Engine : string -> string -> bool -> Engine
}.

(** *** Start-up effects *)

(** One call made to a collaborator while the application starts. *)
Inductive Step : Type :=
| LoggerWarn (msg : string)
| LoggerFatalf (msg : string)
| InitRouterHandlers (position : nat)
| EngineInit (name : string)
| WebpackInit (dev : bool)
| GoStartWebpack.

(** How start-up code ends: normally, by [os.Exit], or by a panic. *)
Inductive Exit (A : Type) : Type :=
| Done (a : A)
| OsExit (code : Z)
| Panic (v : GoValue).
Arguments Done {A} a.
Arguments OsExit {A} code.
Arguments Panic {A} v.

(** Start-up computations: the calls made, oldest first, and the way out. *)
Definition Proc (A : Type) : Type := list Step * Exit A.

Definition ret {A : Type} (a : A) : Proc A := ([], Done a).

Definition bind {A B : Type} (m : Proc A) (f : A -> Proc B) : Proc B :=
  match m with
  | (t, Done a) => let '(t', r) := f a in (t ++ t', r)
  | (t, OsExit code) => (t, OsExit code)
  | (t, Panic v) => (t, Panic v)
  end.

Definition step (s : Step) : Proc unit := ([s], Done tt).

(** The run-time error of a method call on a nil interface value. *)
Definition nilDereference : GoValue :=
  VError (OtherError "runtime.errorString"
            "runtime error: invalid memory address or nil pointer dereference").

(** [logger.Fatalf] on the logger of the options: it logs, then exits the
    process with status 1.  On a nil logger the call is a run-time panic. *)
Definition Fatalf {A : Type} (logger : option Logger) (msg : string) : Proc A :=
  match logger with
  | Some _ => ([LoggerFatalf msg], OsExit 1)
  | None => ([], Panic nilDereference)
  end.

(** [logger.Warn]; on a nil logger the call is a run-time panic. *)
Definition Warn (logger : option Logger) (msg : string) : Proc unit :=
  match logger with
  | Some _ => ([LoggerWarn msg], Done tt)
  | None => ([], Panic nilDereference)
  end.

(** [panic(v)] *)
Definition panic {A : Type} (v : GoValue) : Proc A := ([], Panic v).

Notation "x <- m ;; k" := (bind m (fun x => k))
  (at level 61, m at next level, right associativity).
Notation "m ;;; k" := (bind m (fun _ => k))
  (at level 61, right associativity).

Section Model.

Context {X : Externals}.

(** *** The application *)

(** [Options], declared in another file of the package, with the fields
    [app.go] reads; nil handles are [None]. *)
Record Options : Type := {
  env : string;
  sessionStore : option SessionStore;
  sessionName : string;
  logger : option Logger;
  broker : option Broker;
  webpackEnabled : bool;
  opt_tmplEngine : option Engine
}.

(** [MiddlewareStack], with the two fields [NewApp] sets. *)
Record MiddlewareStack : Type := {
  stack : list MiddlewareFunc;
  skips : Skips
}.

(** [App].  The embedded [http.Handler] and the negroni handle [n] are not
    used by the code modelled here.  The router is the list of the
    registrations made on it, in their order. *)
Record App : Type := {
  opts : Options;
  muxRouter : list Route;
  tmplEngine : Engine;
  middleware : MiddlewareStack;
  routers : list Router
}.

(** The assignment [app.opts.sessionStore = store]. *)
Definition set_sessionStore (app : App) (store : SessionStore) : App :=
  {| opts :=
       {| env := env (opts app);
          sessionStore := Some store;
          sessionName := sessionName (opts app);
          logger := logger (opts app);
          broker := broker (opts app);
          webpackEnabled := webpackEnabled (opts app);
          opt_tmplEngine := opt_tmplEngine (opts app) |};
     muxRouter := muxRouter app;
     tmplEngine := tmplEngine app;
     middleware := middleware app;
     routers := routers app |}.

(** Modelled from the spec: [MiddlewareStack.Use], declared in another file
    of package [web]: it "appends one or more middleware functions to the
    process-wide ordered list". *)
Definition MiddlewareStack_Use (ms : MiddlewareStack) (mw : list MiddlewareFunc)
  : MiddlewareStack :=
  {| stack := stack ms ++ mw; skips := skips ms |}.

(** Modelled from the spec: [MiddlewareStack.handle], declared in another
    file of package [web].  "Starting from the terminal handler, each
    middleware wraps the handler produced by the previous composition step,
    applied in reverse registration order so that the first-registered
    middleware is the outermost wrapper"; "a middleware with a skip rule
    matching the target route is omitted from that particular route's
    composed chain".  [compose sk terminal i mws] composes the middleware
    [mws], which stand at the positions [i], [i+1], ... of the stack. *)
Fixpoint compose (sk : Skips) (terminal : RouteHandler) (i : nat)
         (mws : list MiddlewareFunc) : RouteHandler :=
  match mws with
  | [] => terminal
  | mw :: rest =>
      let inner := compose sk terminal (S i) rest in
      if skipped sk i terminal then inner else mw inner
  end.

Definition handle (ms : MiddlewareStack) (terminal : RouteHandler)
  : RouteHandler :=
  compose (skips ms) terminal 0 (stack ms).

(** [sessions.Store.Get] *)
Definition store_Get (store : SessionStore) (req : Request) (name : string)
  : GSession * option error :=
  match store with
  | CookieStore keyPairs => cookieStoreGet keyPairs req name
  | SuppliedStore get => get req name
  end.

(** [App.setupSession]; [getenv] is [os.Getenv]. *)
Definition setupSession (getenv : string -> string) (app : App) : Proc App :=
  let env := env (opts app) in
  match sessionStore (opts app) with
  | None =>
      let secret := getenv "SESSION_SECRET" in
      secret <-
        (if String.eqb secret "" then
           if String.eqb env "production" then
             Fatalf (logger (opts app))
                    "Missing a required environment variable: SESSION_SECRET"
           else if String.eqb env "development" then
             Warn (logger (opts app))
                  "You will need to setup a SESSION_SECRET in production mode." ;;;
             ret "development-secret"
           else ret secret
         else ret secret) ;;
      ret (set_sessionStore app (CookieStore secret))
  | Some _ => ret app
  end.

(** [NewApp]; [options] is what [newOptions(opts...)] returns. *)
Definition NewApp (getenv : string -> string) (options : Options) : Proc App :=
  let engine :=
    match opt_tmplEngine options with
    | None =>
        (* Use pongo2 as default template engine *)
        NewPongo2Engine "templates" ".html"
                        (String.eqb (env options) "development")
    | Some e => e
    end in
  let options :=
    {| env := env options;
       sessionStore := sessionStore options;
       sessionName := sessionName options;
       logger := logger options;
       broker := broker options;
       webpackEnabled := webpackEnabled options;
       opt_tmplEngine := Some engine |} in
  let staticDir := "/public/" in
  (* Create the static router *)
  let muxRouter :=
    [ {| route_path := staticDir; route_isPrefix := true;
         route_methods := [];
         route_endpoint := StaticFiles staticDir ("." ++ staticDir)%string |} ] in
  let app :=
    {| opts := options;
       muxRouter := muxRouter;
       tmplEngine := engine;
       middleware := {| stack := []; skips := nilSkips |};
       routers := [] |} in
  setupSession getenv app.

(** [App.getSession]: the error [Get] returns is dropped.  Calling [Get] on
    a nil store is a run-time panic. *)
Definition getSession (app : App) (res : ResponseWriter) (req : Request)
  : Attempt Session :=
  match sessionStore (opts app) with
  | None => Panicked nilDereference
  | Some store =>
      let '(session, _) := store_Get store req (sessionName (opts app)) in
      Ok {| gSession := session; session_req := req; session_res := res |}
  end.

(** [App.HandleError] *)
Definition HandleError (app : App) (res : ResponseWriter) (req : Request)
           (err : error) (w : World) : World :=
  if String.eqb (env (opts app)) "development" then
    w ++ [WriteHeader res 500; RenderDevelopmentError res req err]
  else
    w ++ [WriteHeader res 500].

(** The type switch of the panic guard: the error a recovered value [r]
    becomes. *)
Definition recoverError (r : GoValue) : error :=
  match r with
  | VError t => t
  | VString t => ErrorString (Sprintf0 t)
  | t => ErrorString (Sprintf0 (Sprint t))
  end.

(** The context the dispatch function builds, once the session is there:
    [NewDefaultContext()] followed by the seven assignments, which set every
    field this model of the context has. *)
Definition requestContext (app : App) (res : ResponseWriter) (req : Request)
           (session : Session) : DefaultContext :=
  {| ctx_logger := logger (opts app);
     ctx_broker := broker (opts app);
     ctx_res := Some res;
     ctx_req := Some req;
     ctx_cookies := Some {| cookies_res := res; cookies_req := req |};
     ctx_session := Some session;
     ctx_tmplEngine := Some (tmplEngine app) |}.

(** The deferred function of the dispatch function: [recovered] is what
    [recover()] returns, [None] for nil. *)
Definition panicGuard (app : App) (res : ResponseWriter) (req : Request)
           (recovered : option GoValue) (w : World) : World :=
  match recovered with
  | Some r => HandleError app res req (recoverError r) w
  | None => w
  end.

(** What follows the call [h(ctx)] in the dispatch function: the check of
    the returned error, then the deferred guard.  A panic of [h] skips the
    check, and [recover()] then returns its value. *)
Definition conclude (app : App) (res : ResponseWriter) (req : Request)
           (outcome : World * Result) : World :=
  match outcome with
  | (w1, Return err) =>
      (* Handle Controller Error *)
      let w2 := match err with
                | Some e => HandleError app res req e w1
                | None => w1
                end in
      panicGuard app res req None w2
  | (w1, Panicking r) =>
      (* Handle Controller Panic *)
      panicGuard app res req (Some r) w1
  end.

(** The function [HandleMethod] registers for [routeHandler].  [app] is the
    application as it is when the request arrives: the closure holds the
    pointer.  The result is the world after the request and the panic that
    leaves the function, if any ([getSession] runs before the guard is
    installed). *)
Definition dispatch (app : App) (routeHandler : RouteHandler)
           (res : ResponseWriter) (req : Request) (w : World)
  : World * option GoValue :=
  match getSession app res req with
  | Ok session =>
      let ctx := requestContext app res req session in
      let h := handle (middleware app) routeHandler in
      (conclude app res req (h ctx w), None)
  | Panicked v => (w, Some v)
  end.

(** [App.HandleMethod]: [muxRouter.HandleFunc(path, f).Methods(methods...)]
    is one registration on the router, of the dispatch function for
    [routeHandler] under the path and the methods given. *)
Definition HandleMethod (app : App) (methods : list string) (path : string)
           (routeHandler : RouteHandler) : App :=
  {| opts := opts app;
     muxRouter := muxRouter app ++
                  [ {| route_path := path; route_isPrefix := false;
                       route_methods := methods;
                       route_endpoint := Dispatch routeHandler |} ];
     tmplEngine := tmplEngine app;
     middleware := middleware app;
     routers := routers app |}.

Definition Get (app : App) (path : string) (h : RouteHandler) : App :=
  HandleMethod app ["GET"] path h.

Definition Post (app : App) (path : string) (h : RouteHandler) : App :=
  HandleMethod app ["POST"] path h.

Definition Put (app : App) (path : string) (h : RouteHandler) : App :=
  HandleMethod app ["PUT"] path h.

Definition Delete (app : App) (path : string) (h : RouteHandler) : App :=
  HandleMethod app ["DELETE"] path h.

Definition Patch (app : App) (path : string) (h : RouteHandler) : App :=
  HandleMethod app ["PATCH"] path h.

Definition Any (app : App) (path : string) (h : RouteHandler) : App :=
  HandleMethod app ["GET"; "POST"; "PUT"; "DELETE"; "PATCH"] path h.

(** [App.Use] *)
Definition Use (app : App) (mw : list MiddlewareFunc) : App :=
  {| opts := opts app;
     muxRouter := muxRouter app;
     tmplEngine := tmplEngine app;
     middleware := MiddlewareStack_Use (middleware app) mw;
     routers := routers app |}.

(** [App.Resource] *)
Definition Resource (app : App) (path : string) (resource : ResourceInterface) : App :=
  let id_path := Path.Join [path; "/{id}"] in
  let app := Get app path (List resource) in
  let app := Get app id_path (Show resource) in
  let app := Post app path (Create resource) in
  let app := Put app id_path (Update resource) in
  let app := Delete app id_path (Destroy resource) in
  app.


(** *** Start-up *)

(** [App.initRouterHandlers] is declared in another file of package [web]:
    it materializes the routes of a sub-router against the application. *)
Variable initRouterHandlers : App -> Router -> App.

(** The loop of [Init] over [app.routers], from a position on. *)
Fixpoint initRouters (app : App) (position : nat) (rs : list Router)
  : Proc App :=
  match rs with
  | [] => ret app
  | router :: rest =>
      step (InitRouterHandlers position) ;;;
      initRouters (initRouterHandlers app router) (S position) rest
  end.

(** [App.Init] *)
Definition Init (app : App) : Proc App :=
  (* Initialize Router Handlers *)
  app <- initRouters app 0 (routers app) ;;
  (* Initialize Template Engine *)
  step (EngineInit (engine_name (tmplEngine app))) ;;;
  match engine_Init (tmplEngine app) with
  | Some err => panic (VError err)
  | None => ret app
  end.

(** [App.Start] *)
Definition Start (app : App) : Proc App :=
  app <- Init app ;;
  let dev := String.eqb (env (opts app)) "development" in
  if webpackEnabled (opts app) then
    step (WebpackInit dev) ;;;
    (if dev then step GoStartWebpack else ret tt) ;;;
    ret app
  else ret app.

(** Construction followed by [Start]: the way to the serving state. *)
Definition boot (getenv : string -> string) (options : Options) : Proc App :=
  app <- NewApp getenv options ;;
  Start app.

(** *** Handlers and middleware the properties speak about *)




(** A handler that runs [body] and panics with the value [body] yields, if
    any; and the otherwise identical handler that returns the error this
    value stands for instead of panicking. *)
Definition panicking (body : DefaultContext -> World -> World * option GoValue)
  : RouteHandler :=
  fun ctx w =>
    match body ctx w with
    | (w', Some v) => (w', Panicking v)
    | (w', None) => (w', Return None)
    end.



(** The chain a request to a route with terminal handler [h] runs. *)
Definition chain (app : App) (h : RouteHandler) : RouteHandler :=
  handle (middleware app) h.

(** Registering batches of middleware with [Use], one call per batch. *)
Definition UseAll (app : App) (batches : list (list MiddlewareFunc)) : App :=
  fold_left Use batches app.


(** The route [HandleMethod] adds. *)
Definition route (methods : list string) (path : string) (h : RouteHandler)
  : Route :=
  {| route_path := path; route_isPrefix := false; route_methods := methods;
     route_endpoint := Dispatch h |}.

(** The middleware
    [func(next) { return func(ctx) error { pre; err := next(ctx); post; return err } }]:
    an effect before the inner handler and one after it has returned. *)
Definition around (pre post : string) : MiddlewareFunc :=
  fun next ctx w =>
    match next ctx (w ++ [Effect pre]) with
    | (w', Return err) => (w' ++ [Effect post], Return err)
    | (w', Panicking v) => (w', Panicking v)
    end.

(** The middleware with an effect before the inner handler only. *)
Definition before (pre : string) : MiddlewareFunc :=
  fun next ctx w => next ctx (w ++ [Effect pre]).


(** Middleware with an effect before and after each, and the effects of a
    list of them. *)
Definition aroundAll (labels : list (string * string)) : list MiddlewareFunc :=
  map (fun l => around (fst l) (snd l)) labels.

Definition pres (labels : list (string * string)) : World :=
  map (fun l => Effect (fst l)) labels.

Definition posts (labels : list (string * string)) : World :=
  map (fun l => Effect (snd l)) labels.

End Model.

(** *** A concrete setting, for examples *)

Module Sample.

(** A router as the routes it will register. *)
Definition router : Type := list (list string * string).

Definition externals : Externals := {|
  Skips := list nat;
  nilSkips := [];
  skipped := fun sk i _ => existsb (Nat.eqb i) sk;
  Router := router;
  Sprintf0 := Fmt.sprintf0;
  cookieStoreGet := fun _ req name =>
    ({| gs_name := name; gs_Values := CookieHeader req; gs_IsNew := false |},
     None);
  NewPongo2Engine := fun _ _ _ =>
    {| engine_name := "pongo2"; engine_Init := None |}
|}.

#[local] Existing Instance externals.

Definition ok : RouteHandler := fun _ w => (w ++ [Effect "handler"], Return None).

Definition initRouterHandlers (app : App) (r : router) : App :=
  fold_left (fun a '(methods, path) => HandleMethod a methods path ok) r app.

Definition options (env : string) : Options :=
  {| env := env; sessionStore := None; sessionName := "zsid";
     logger := Some 0; broker := None; webpackEnabled := true;
     opt_tmplEngine := None |}.

Definition noSecret : string -> string := fun _ => "".

Definition request : Request :=
  {| Method := "GET"; URLPath := "/boom"; CookieHeader := [] |}.

Definition context : DefaultContext :=
  {| ctx_logger := Some 0; ctx_broker := None; ctx_res := Some 1;
     ctx_req := Some request; ctx_cookies := None; ctx_session := None;
     ctx_tmplEngine := None |}.

(** An application in a given environment, with a cookie store. *)
Definition app (env : string) : App :=
  {| opts := {| env := env; sessionStore := Some (CookieStore "s3cret");
                sessionName := "zsid"; logger := Some 0; broker := None;
                webpackEnabled := false; opt_tmplEngine := None |};
     muxRouter := [];
     tmplEngine := {| engine_name := "pongo2"; engine_Init := None |};
     middleware := {| stack := []; skips := nilSkips |};
     routers := [] |}.

Definition boom : error := OtherError "*web.boomError" "kaboom".


(** A session store whose [Get] always reports a decoding failure. *)
Definition brokenStore : SessionStore :=
  SuppliedStore (fun _ name =>
    ({| gs_name := name; gs_Values := []; gs_IsNew := true |},
     Some (ErrorString "securecookie: the value is not valid"))).

Definition brokenEngine : Engine :=
  {| engine_name := "broken"; engine_Init := Some boom |}.

Definition widgets : ResourceInterface :=
  {| List := fun _ w => (w ++ [Effect "List"], Return None);
     Show := fun _ w => (w ++ [Effect "Show"], Return None);
     Create := fun _ w => (w ++ [Effect "Create"], Return None);
     Update := fun _ w => (w ++ [Effect "Update"], Return None);
     Destroy := fun _ w => (w ++ [Effect "Destroy"], Return None) |}.

(** An application in the environment ["staging"], without a store yet. *)
Definition staging : App :=
  {| opts := options "staging"; muxRouter := [];
     tmplEngine := {| engine_name := "pongo2"; engine_Init := None |};
     middleware := {| stack := []; skips := nilSkips |}; routers := [] |}.

Definition aRouter : router := [(["GET"], "/a")].

(** An application with one sub-router, whose engine fails to initialize. *)
Definition withBrokenEngine : App :=
  {| opts := options "development"; muxRouter := [];
     tmplEngine := brokenEngine;
     middleware := {| stack := []; skips := nilSkips |};
     routers := [aRouter] |}.

(** An application given the store [brokenStore]. *)
Definition withBrokenStore : App :=
  {| opts := {| env := "production"; sessionStore := Some brokenStore;
                sessionName := "zsid"; logger := None; broker := None;
                webpackEnabled := false; opt_tmplEngine := None |};
     muxRouter := [];
     tmplEngine := {| engine_name := "pongo2"; engine_Init := None |};
     middleware := {| stack := []; skips := nilSkips |}; routers := [] |}.

End Sample.

(* ================================================================== *)
(** ** Properties                                                     *)
(* ================================================================== *)

(** *** The sample formatter meets the two facts assumed of [fmt] *)

Lemma sprintf0_plain (s : string) :
  Fmt.has_percent s = false -> Fmt.sprintf0 s = s.
Proof.
  induction s as [|c s IH]; simpl; [reflexivity|].
  intros H. apply orb_false_iff in H. destruct H as [Hc Hs].
  rewrite Hc. now rewrite IH.
Qed.

Lemma sprintf0_noverb (s : string) :
  Fmt.has_percent s = false ->
  Fmt.sprintf0 (s ++ "%")%string = (s ++ "%!(NOVERB)")%string.
Proof.
  induction s as [|c s IH]; simpl; [reflexivity|].
  intros H. apply orb_false_iff in H. destruct H as [Hc Hs].
  rewrite Hc. now rewrite IH.
Qed.

Lemma sprintf0_ok : Fmt.Sprintf0_ok Fmt.sprintf0.
Proof. split; [exact sprintf0_plain | exact sprintf0_noverb]. Qed.

(** *** [path.Clean] on the cases of its documentation *)

Example Clean_cases :
  map Path.Clean
      [ ""; "abc"; "abc/def"; "a/b/c"; "."; ".."; "../.."; "../../abc"; "/abc";
        "/"; "abc/"; "abc/def/"; "a/b/c/"; "./"; "../"; "../../"; "/abc/";
        "abc//def//ghi"; "//abc"; "///abc"; "//abc//"; "abc//";
        "abc/./def"; "/./abc/def"; "abc/.";
        "abc/def/ghi/../jkl"; "abc/def/../ghi/../jkl"; "abc/def/.."; "abc/def/../..";
        "/abc/def/../.."; "abc/def/../../.."; "/abc/def/../../..";
        "abc/def/../../../ghi/jkl/../../../mno";
        "abc/./../def"; "abc//./../def"; "abc/../../././../def" ] =
      [ "."; "abc"; "abc/def"; "a/b/c"; "."; ".."; "../.."; "../../abc"; "/abc";
        "/"; "abc"; "abc/def"; "a/b/c"; "."; ".."; "../.."; "/abc";
        "abc/def/ghi"; "/abc"; "/abc"; "/abc"; "abc";
        "abc/def"; "/abc/def"; "abc";
        "abc/def/jkl"; "abc/jkl"; "abc"; ".";
        "/"; ".."; "/";
        "../../mno";
        "def"; "def"; "../../def" ].
Proof. reflexivity. Qed.

Example Join_cases :
  map Path.Join
      [ ["/widgets"; "/{id}"]; ["/widgets/"; "/{id}"]; ["/"; "/{id}"];
        [""; "/{id}"]; ["/api/v1/widgets"; "/{id}"] ] =
      [ "/widgets/{id}"; "/widgets/{id}"; "/{id}"; "/{id}";
        "/api/v1/widgets/{id}" ].
Proof. reflexivity. Qed.

(** *** [path.Join] on a well-formed rooted path *)

#[local] Arguments Ascii.eqb : simpl never.

Lemma copy_element_plain (e rest : list ascii) :
  existsb (Ascii.eqb "/") e = false -> Path.at_sep rest = true ->
  Path.copy_element (e ++ rest) = (e, rest).
Proof.
  intros He Hrest. induction e as [|c e IH]; simpl in *.
  - destruct rest as [|c r]; simpl in *; [reflexivity|]. now rewrite Hrest.
  - apply orb_false_iff in He. destruct He as [Hc He].
    rewrite Ascii.eqb_sym, Hc. now rewrite IH.
Qed.

Lemma clean_loop_element (fuel : nat) (e rest out : list ascii) :
  Path.plain e = true -> Path.at_sep rest = true ->
  Path.clean_loop (S fuel) true (e ++ rest) out 1 =
  Path.clean_loop fuel true rest (Path.sep out ++ e) 1.
Proof.
  intros He Hrest. unfold Path.plain in He.
  apply andb_true_iff in He. destruct He as [Hslash Hshape].
  apply negb_true_iff in Hslash.
  pose proof (copy_element_plain e rest Hslash Hrest) as Hcopy.
  destruct e as [|c e]; [discriminate|].
  simpl in Hslash. apply orb_false_iff in Hslash. destruct Hslash as [Hc Hslash].
  rewrite Ascii.eqb_sym in Hc.
  cbn [Path.clean_loop app]. rewrite Hc.
  assert (Hdot : (Ascii.eqb c "." && Path.at_sep (e ++ rest) = false)%bool).
  { destruct e as [|c2 e]; simpl in *.
    - rewrite Hrest, andb_true_r. now apply negb_true_iff.
    - apply orb_false_iff in Hslash. destruct Hslash as [Hc2 _].
      rewrite Ascii.eqb_sym in Hc2. rewrite Hc2. apply andb_false_r. }
  rewrite Hdot.
  assert (Hdotdot : (Ascii.eqb c "." &&
            match e ++ rest with
            | c2 :: r2 => Ascii.eqb c2 "." && Path.at_sep r2
            | [] => false
            end = false)%bool).
  { destruct e as [|c2 [|c3 e]]; simpl in *.
    - destruct rest as [|c2 r2]; simpl in *; [apply andb_false_r|].
      apply Ascii.eqb_eq in Hrest. subst c2. simpl. apply andb_false_r.
    - rewrite Hrest, andb_true_r. now apply negb_true_iff.
    - apply orb_false_iff in Hslash. destruct Hslash as [_ Hslash].
      apply orb_false_iff in Hslash. destruct Hslash as [Hc3 _].
      rewrite Ascii.eqb_sym in Hc3. rewrite Hc3.
      now rewrite !andb_false_r. }
  rewrite Hdotdot.
  change (c :: e ++ rest) with ((c :: e) ++ rest). rewrite Hcopy.
  unfold Path.sep. cbn [andb negb orb].
  destruct (length out =? 1); rewrite ?orb_false_r; reflexivity.
Qed.

Lemma at_sep_rooted (elems : list (list ascii)) (rest : list ascii) :
  Path.at_sep rest = true -> Path.at_sep (Path.rooted elems ++ rest) = true.
Proof. destruct elems; simpl; auto. Qed.

Lemma clean_loop_rooted (elems : list (list ascii)) (rest : list ascii) :
  Forall (fun e => Path.plain e = true) elems ->
  Path.at_sep rest = true ->
  forall fuel out,
    Path.clean_loop (2 * length elems + fuel) true
                    (Path.rooted elems ++ rest) out 1 =
    Path.clean_loop fuel true rest (fold_left Path.place elems out) 1.
Proof.
  intros Hall Hrest. induction Hall as [|e es He Hes IH]; intros fuel out.
  - reflexivity.
  - replace (2 * length (e :: es) + fuel)
      with (S (S (2 * length es + fuel))) by (simpl; lia).
    cbn [Path.rooted flat_map app]. fold (Path.rooted es).
    rewrite <- app_assoc.
    change (Path.clean_loop (S (S (2 * length es + fuel))) true
              ("/"%char :: e ++ Path.rooted es ++ rest) out 1)
      with (Path.clean_loop (S (2 * length es + fuel)) true
              (e ++ Path.rooted es ++ rest) out 1).
    rewrite clean_loop_element by auto using at_sep_rooted.
    rewrite IH. reflexivity.
Qed.

Lemma fold_place_long (elems : list (list ascii)) :
  forall out, 1 < length out ->
              fold_left Path.place elems out = out ++ Path.rooted elems.
Proof.
  induction elems as [|e es IH]; intros out Hlen; simpl.
  - now rewrite app_nil_r.
  - assert (E : Path.place out e = out ++ "/"%char :: e).
    { unfold Path.place, Path.sep. destruct (Nat.eqb_spec (length out) 1); [lia|].
      now rewrite <- app_assoc. }
    rewrite E, IH.
    + now rewrite <- app_assoc.
    + rewrite length_app. simpl. lia.
Qed.

Lemma length_rooted (elems : list (list ascii)) :
  Forall (fun e => Path.plain e = true) elems ->
  2 * length elems <= length (Path.rooted elems).
Proof.
  induction 1 as [|e es He Hes IH]; simpl; [lia|].
  rewrite length_app. destruct e; [discriminate|]. simpl. lia.
Qed.

Lemma list_ascii_of_string_app (s1 s2 : string) :
  list_ascii_of_string (s1 ++ s2)%string =
  list_ascii_of_string s1 ++ list_ascii_of_string s2.
Proof. induction s1 as [|c s1 IH]; simpl; [reflexivity|now rewrite IH]. Qed.

Lemma string_of_list_ascii_app (l1 l2 : list ascii) :
  string_of_list_ascii (l1 ++ l2) =
  (string_of_list_ascii l1 ++ string_of_list_ascii l2)%string.
Proof. induction l1 as [|c l1 IH]; simpl; [reflexivity|now rewrite IH]. Qed.

Lemma Clean_rooted (l : list ascii) :
  Path.Clean (string_of_list_ascii ("/"%char :: l)) =
  match Path.clean_loop (S (S (length l))) true l ["/"%char] 1 with
  | [] => "."
  | out => string_of_list_ascii out
  end.
Proof.
  unfold Path.Clean. rewrite list_ascii_of_string_of_list_ascii.
  cbn [tl length]. rewrite Ascii.eqb_refl.
  destruct (Path.clean_loop (S (S (length l))) true l ["/"%char] 1); reflexivity.
Qed.

Lemma clean_loop_done (fuel : nat) (out : list ascii) :
  Path.clean_loop fuel true [] out 1 = out.
Proof. destruct fuel; reflexivity. Qed.

(** For a rooted path made of plain elements, joining ["/{id}"] appends
    it. *)
Lemma Join_id_rooted (elems : list (list ascii)) :
  elems <> [] ->
  Forall (fun e => Path.plain e = true) elems ->
  Path.Join [string_of_list_ascii (Path.rooted elems); "/{id}"] =
  (string_of_list_ascii (Path.rooted elems) ++ "/{id}")%string.
Proof.
  intros Hne Hall. destruct elems as [|e es]; [congruence|].
  inversion Hall as [|? ? He Hes]; subst.
  pose proof (length_rooted es Hes) as Hlen.
  set (idc := list_ascii_of_string "{id}").
  assert (Hid : Path.plain idc = true) by reflexivity.
  assert (EJ : forall q, Path.Join [String "/" q; "/{id}"] =
                        Path.Clean (String "/" q ++ "/" ++ "/{id}")%string)
    by reflexivity.
  change (string_of_list_ascii (Path.rooted (e :: es)))
    with (String "/" (string_of_list_ascii (e ++ Path.rooted es))).
  rewrite EJ.
  change (String "/" (string_of_list_ascii (e ++ Path.rooted es)))
    with (string_of_list_ascii ("/"%char :: e ++ Path.rooted es)).
  change ("/{id}") with (string_of_list_ascii (Path.rooted [idc])).
  change ("/") with (string_of_list_ascii ["/"%char]).
  rewrite <- !string_of_list_ascii_app.
  change (("/"%char :: e ++ Path.rooted es) ++ ["/"%char] ++ Path.rooted [idc])
    with ("/"%char :: (e ++ Path.rooted es) ++ ["/"%char] ++ Path.rooted [idc]).
  rewrite Clean_rooted.
  set (l := (e ++ Path.rooted es) ++ ["/"%char] ++ Path.rooted [idc]).
  assert (Hfuel : exists fuel, S (length l) = 2 * length es + S (2 * 1 + fuel)).
  { exists (length l - 2 * length es - 2). subst l.
    rewrite !length_app in *. simpl. lia. }
  destruct Hfuel as [fuel Hfuel].
  subst l. rewrite <- !app_assoc.
  rewrite clean_loop_element;
    [| exact He | apply at_sep_rooted; reflexivity].
  rewrite <- !app_assoc in Hfuel. rewrite Hfuel.
  rewrite clean_loop_rooted by (auto; reflexivity).
  change (Path.clean_loop (S (2 * 1 + fuel)) true
            (["/"%char] ++ Path.rooted [idc]) (fold_left Path.place es (Path.sep ["/"%char] ++ e)) 1)
    with (Path.clean_loop (2 * 1 + fuel) true
            (Path.rooted [idc] ++ []) (fold_left Path.place es (Path.sep ["/"%char] ++ e)) 1).
  change (2 * 1) with (2 * length [idc]).
  rewrite clean_loop_rooted by (auto; reflexivity).
  rewrite clean_loop_done.
  change (Path.sep ["/"%char] ++ e) with ("/"%char :: e).
  rewrite <- fold_left_app, fold_place_long.
  - destruct e as [|c e]; [discriminate|].
    unfold Path.rooted. rewrite flat_map_app. simpl.
    rewrite <- !app_assoc. reflexivity.
  - destruct e; [discriminate|]. simpl. lia.
Qed.

Section Properties.

Context {X : Externals}.
Variable initRouterHandlers : App -> Router -> App.

(** *** The panic guard *)

Lemma recoverError_error (e : error) : recoverError (VError e) = e.
Proof. reflexivity. Qed.

Lemma recoverError_string_plain (s : string) :
  Fmt.Sprintf0_ok Sprintf0 -> Fmt.has_percent s = false ->
  recoverError (VString s) = ErrorString s.
Proof. intros [Hplain _] Hs. simpl. now rewrite Hplain. Qed.

Lemma recoverError_default_plain (v : GoValue) :
  Fmt.Sprintf0_ok Sprintf0 -> Fmt.has_percent (Sprint v) = false ->
  (forall e, v <> VError e) ->
  Error (recoverError v) = Sprint v.
Proof.
  intros [Hplain _] Hs Hv.
  destruct v as [e|s|n|b|t]; simpl; try now rewrite Hplain.
  now destruct (Hv e).
Qed.

(** C3 (the code departs from it).  The guard formats a recovered string
    with [fmt.Errorf], as a format: recovering from [panic("100%")] yields an
    error whose message is ["100%!(NOVERB)"], not the string panicked
    with. *)
Theorem recoverError_string_percent :
  Fmt.Sprintf0_ok Sprintf0 ->
  Error (recoverError (VString "100%")) = "100%!(NOVERB)" /\
  Error (recoverError (VString "100%")) <> "100%".
Proof.
  intros [_ Hnoverb].
  assert (E : Error (recoverError (VString "100%")) = "100%!(NOVERB)").
  { simpl. exact (Hnoverb "100" eq_refl). }
  split; [exact E|]. rewrite E. discriminate.
Qed.

(** *** Panics and returned errors *)








(** *** When the chain is composed *)

Lemma dispatch_chain (app : App) (h : RouteHandler) (res : ResponseWriter)
      (req : Request) (w : World) (session : Session) :
  getSession app res req = Ok session ->
  dispatch app h res req w =
  (conclude app res req (chain app h (requestContext app res req session) w),
   None).
Proof. intros H. unfold dispatch. now rewrite H. Qed.



(** *** The order of the middleware *)

Lemma Use_stack (app : App) (mws : list MiddlewareFunc) :
  stack (middleware (Use app mws)) = stack (middleware app) ++ mws /\
  skips (middleware (Use app mws)) = skips (middleware app).
Proof. split; reflexivity. Qed.

Lemma UseAll_stack (batches : list (list MiddlewareFunc)) (app : App) :
  stack (middleware (UseAll app batches)) =
  stack (middleware app) ++ concat batches /\
  skips (middleware (UseAll app batches)) = skips (middleware app).
Proof.
  revert app. induction batches as [|b bs IH]; intros app; simpl.
  - now rewrite app_nil_r.
  - destruct (IH (Use app b)) as [Hs Hk]. unfold UseAll in *.
    rewrite Hs, Hk. simpl. now rewrite <- app_assoc.
Qed.

(** Without a skip rule in force the composition is the plain nesting
    [M1 (M2 (... (Mn h)))]. *)
Lemma compose_no_skip (sk : Skips) (h : RouteHandler) (mws : list MiddlewareFunc) :
  (forall i, skipped sk i h = false) ->
  forall i, compose sk h i mws = fold_right (fun mw inner => mw inner) h mws.
Proof.
  intros Hno. induction mws as [|mw rest IH]; intros i; simpl.
  - reflexivity.
  - now rewrite Hno, IH.
Qed.

Lemma nest_around (labels : list (string * string)) (h : RouteHandler)
      (ctx : DefaultContext) (hw : World) :
  forall w,
    h ctx (w ++ pres labels) = (w ++ pres labels ++ hw, Return None) ->
    fold_right (fun mw inner => mw inner) h (aroundAll labels) ctx w =
    (w ++ pres labels ++ hw ++ rev (posts labels), Return None).
Proof.
  induction labels as [|[pre post] rest IH]; intros w Hh; simpl in *.
  - rewrite app_nil_r in *. exact Hh.
  - unfold around at 1. simpl.
    rewrite (IH (w ++ [Effect pre])).
    + f_equal. repeat (rewrite <- app_assoc; simpl). reflexivity.
    + repeat (rewrite <- app_assoc; simpl). exact Hh.
Qed.

(** C4.  Middleware registered through [Use] (in any number of calls) on an
    application without middleware, no skip rule being in force for the
    handler, are composed with the first registered outermost:
    [handle] builds [M1 (M2 (... (Mn h)))]; and when each [Mi] has an effect
    before and an effect after the inner handler, a successful request shows
    the effects in the order M1-pre, ..., Mn-pre, handler, Mn-post, ...,
    M1-post. *)
Theorem middleware_order
        (app : App) (batches : list (list MiddlewareFunc)) (h : RouteHandler) :
  stack (middleware app) = [] ->
  (forall i, skipped (skips (middleware app)) i h = false) ->
  handle (middleware (UseAll app batches)) h =
  fold_right (fun mw inner => mw inner) h (concat batches) /\
  forall labels ctx w hw,
    concat batches = aroundAll labels ->
    h ctx (w ++ pres labels) = (w ++ pres labels ++ hw, Return None) ->
    handle (middleware (UseAll app batches)) h ctx w =
    (w ++ pres labels ++ hw ++ rev (posts labels), Return None).
Proof.
  intros Hempty Hno.
  assert (E : handle (middleware (UseAll app batches)) h =
              fold_right (fun mw inner => mw inner) h (concat batches)).
  { unfold handle. destruct (UseAll_stack batches app) as [Hs Hk].
    rewrite Hs, Hk, Hempty. simpl. now apply compose_no_skip. }
  split; [exact E|].
  intros labels ctx w hw Hl Hh. rewrite E, Hl. now apply nest_around.
Qed.

(** *** The error handler *)




(** *** Routes of a resource *)

(** The registrations [Resource(p, r)] makes: five, after the ones the
    router holds, the item path being [path.Join(p, "/{id}")], which for a
    rooted path p of plain elements is p followed by ["/{id}"]; nothing
    else of the application changes, and a second call leaves the
    registrations of the first as they are. *)
Lemma Resource_routes (app : App) (p : string) (r : ResourceInterface) :
  let id_path := Path.Join [p; "/{id}"] in
  muxRouter (Resource app p r) =
    muxRouter app ++
    [ route ["GET"] p (List r);
      route ["GET"] id_path (Show r);
      route ["POST"] p (Create r);
      route ["PUT"] id_path (Update r);
      route ["DELETE"] id_path (Destroy r) ] /\
  length (muxRouter (Resource app p r)) = length (muxRouter app) + 5 /\
  opts (Resource app p r) = opts app /\
  tmplEngine (Resource app p r) = tmplEngine app /\
  middleware (Resource app p r) = middleware app /\
  routers (Resource app p r) = routers app /\
  (forall p' r',
    firstn (length (muxRouter (Resource app p r)))
           (muxRouter (Resource (Resource app p r) p' r')) =
    muxRouter (Resource app p r)) /\
  (forall elems,
    elems <> [] -> Forall (fun e => Path.plain e = true) elems ->
    p = string_of_list_ascii (Path.rooted elems) ->
    id_path = (p ++ "/{id}")%string).
Proof.
  assert (E : forall a q t, muxRouter (Resource a q t) =
    muxRouter a ++
    [ route ["GET"] q (List t);
      route ["GET"] (Path.Join [q; "/{id}"]) (Show t);
      route ["POST"] q (Create t);
      route ["PUT"] (Path.Join [q; "/{id}"]) (Update t);
      route ["DELETE"] (Path.Join [q; "/{id}"]) (Destroy t) ]).
  { intros a q t. unfold Resource, Get, Post, Put, Delete, HandleMethod, route.
    cbn [muxRouter]. repeat rewrite <- app_assoc. reflexivity. }
  intros id_path. repeat split; try reflexivity.
  - apply E.
  - rewrite E, length_app. reflexivity.
  - intros p' r'. rewrite (E (Resource app p r) p' r').
    rewrite firstn_app, Nat.sub_diag, firstn_all. simpl. apply app_nil_r.
  - intros elems Hne Hplain ->. subst id_path. now apply Join_id_rooted.
Qed.

(** *** Session set-up and start-up *)

(** C6 (as amended).  With no session store supplied and [SESSION_SECRET]
    unset, and a logger configured: constructing the application in the
    production environment ends in [logger.Fatalf] before anything else
    happens, so start-up never reaches [Start]; in the development
    environment it succeeds, having logged one warning, with a cookie store
    keyed with ["development-secret"].  With a nil logger the log call
    itself panics, in both environments. *)
Theorem missing_secret
        (getenv : string -> string) (options : Options) :
  sessionStore options = None ->
  getenv "SESSION_SECRET" = "" ->
  (logger options <> None ->
   (env options = "production" ->
    NewApp getenv options =
      ([LoggerFatalf "Missing a required environment variable: SESSION_SECRET"],
       OsExit 1) /\
    boot initRouterHandlers getenv options =
      ([LoggerFatalf "Missing a required environment variable: SESSION_SECRET"],
       OsExit 1)) /\
   (env options = "development" ->
    exists app,
      NewApp getenv options =
        ([LoggerWarn "You will need to setup a SESSION_SECRET in production mode."],
         Done app) /\
      sessionStore (opts app) = Some (CookieStore "development-secret"))) /\
  (logger options = None ->
   env options = "production" \/ env options = "development" ->
   NewApp getenv options = ([], Panic nilDereference) /\
   boot initRouterHandlers getenv options = ([], Panic nilDereference)).
Proof.
  intros Hstore Hsecret. split.
  - intros Hlogger.
    destruct (logger options) as [l|] eqn:Hl; [clear Hlogger|congruence].
    split; intros Henv.
    + assert (E : NewApp getenv options =
        ([LoggerFatalf "Missing a required environment variable: SESSION_SECRET"],
         OsExit 1)).
      { unfold NewApp, setupSession. cbn [opts env sessionStore logger].
        rewrite Hstore, Hsecret, Henv, Hl. reflexivity. }
      split; [exact E|]. unfold boot. rewrite E. reflexivity.
    + eexists. unfold NewApp, setupSession. cbn [opts env sessionStore logger].
      rewrite Hstore, Hsecret, Henv, Hl. simpl. split; reflexivity.
  - intros Hl Henv.
    assert (E : NewApp getenv options = ([], Panic nilDereference)).
    { unfold NewApp, setupSession. cbn [opts env sessionStore logger].
      rewrite Hstore, Hsecret, Hl. destruct Henv as [-> | ->]; reflexivity. }
    split; [exact E|]. unfold boot. rewrite E. reflexivity.
Qed.

(** C9.  With no session store supplied, [SESSION_SECRET] empty and an
    environment that is neither ["production"] nor ["development"],
    [setupSession] logs nothing and does not exit: it installs a cookie
    store keyed with the empty secret. *)
Theorem other_environment_empty_secret
        (getenv : string -> string) (app : App) :
  sessionStore (opts app) = None ->
  getenv "SESSION_SECRET" = "" ->
  env (opts app) <> "production" ->
  env (opts app) <> "development" ->
  setupSession getenv app = ([], Done (set_sessionStore app (CookieStore ""))) /\
  sessionStore (opts (set_sessionStore app (CookieStore ""))) =
    Some (CookieStore "").
Proof.
  intros Hstore Hsecret Hprod Hdev. split; [|reflexivity].
  unfold setupSession. rewrite Hstore, Hsecret.
  apply String.eqb_neq in Hprod, Hdev. rewrite Hprod, Hdev. reflexivity.
Qed.

(** An application [NewApp] has built has a session store. *)
Lemma NewApp_sessionStore (getenv : string -> string) (options : Options)
      (t : list Step) (app : App) :
  NewApp getenv options = (t, Done app) ->
  sessionStore (opts app) <> None.
Proof.
  unfold NewApp, setupSession. cbn [opts env sessionStore].
  destruct (sessionStore options) as [store|] eqn:Hstore.
  - intros H. injection H as _ <-. discriminate.
  - destruct (String.eqb (getenv "SESSION_SECRET") "");
      [destruct (String.eqb (env options) "production");
       [|destruct (String.eqb (env options) "development")]|];
      try destruct (logger options); try discriminate;
      intros H; injection H as _ <-; discriminate.
Qed.

Lemma initRouters_run (rs : list Router) :
  forall app position,
    initRouters initRouterHandlers app position rs =
    (map InitRouterHandlers (seq position (length rs)),
     Done (fold_left initRouterHandlers rs app)).
Proof.
  induction rs as [|router rest IH]; intros app position; simpl.
  - reflexivity.
  - rewrite IH. reflexivity.
Qed.

(** C8.  [Init] first materializes the routes of every registered
    sub-router, in order, and then initializes the template engine; when the
    engine's [Init] returns an error, [Init] panics with that error, and so
    does [Start], which then neither sets up the asset bundler nor
    returns. *)
Theorem Init_engine_failure (app : App) (err : error) :
  let app' := fold_left initRouterHandlers (routers app) app in
  engine_Init (tmplEngine app') = Some err ->
  Init initRouterHandlers app =
    (map InitRouterHandlers (seq 0 (length (routers app))) ++
     [EngineInit (engine_name (tmplEngine app'))],
     Panic (VError err)) /\
  Start initRouterHandlers app = Init initRouterHandlers app.
Proof.
  intros app' Herr.
  assert (E : Init initRouterHandlers app =
    (map InitRouterHandlers (seq 0 (length (routers app))) ++
     [EngineInit (engine_name (tmplEngine app'))], Panic (VError err))).
  { unfold Init. rewrite initRouters_run. fold app'. simpl.
    rewrite Herr. reflexivity. }
  split; [exact E|]. unfold Start. rewrite E. reflexivity.
Qed.

(** *** The session of a request *)

(** C10.  Whatever error the session store's [Get] returns, [getSession]
    yields a session that wraps the session object [Get] produced together
    with the request and the response writer; the context handed to the
    chain holds it, and the dispatch function runs the chain and finishes
    without a panic. *)
Theorem session_error_discarded
        (app : App) (store : SessionStore) (h : RouteHandler)
        (res : ResponseWriter) (req : Request) (w : World) :
  sessionStore (opts app) = Some store ->
  let session :=
    {| gSession := fst (store_Get store req (sessionName (opts app)));
       session_req := req; session_res := res |} in
  getSession app res req = Ok session /\
  ctx_session (requestContext app res req session) = Some session /\
  dispatch app h res req w =
    (conclude app res req
       (handle (middleware app) h (requestContext app res req session) w),
     None).
Proof.
  intros Hstore session.
  assert (E : getSession app res req = Ok session).
  { unfold getSession. rewrite Hstore. subst session.
    destruct (store_Get store req (sessionName (opts app))). reflexivity. }
  repeat split; [exact E|]. now apply dispatch_chain.
Qed.

End Properties.

(* ================================================================== *)
(** ** More of [app.go]: construction, start-up and registration      *)
(* ================================================================== *)

Section Setup.

Context {X : Externals}.
Variable initRouterHandlers : App -> Router -> App.

(** *** Registration as a sequence of calls *)

(** One call of a registration method of [App]. *)
Inductive Registration : Type :=
| RegHandleMethod (methods : list string) (path : string) (h : RouteHandler)
| RegGet (path : string) (h : RouteHandler)
| RegPost (path : string) (h : RouteHandler)
| RegPut (path : string) (h : RouteHandler)
| RegDelete (path : string) (h : RouteHandler)
| RegPatch (path : string) (h : RouteHandler)
| RegAny (path : string) (h : RouteHandler)
| RegUse (mw : list MiddlewareFunc)
| RegResource (path : string) (resource : ResourceInterface).

Definition register1 (app : App) (c : Registration) : App :=
  match c with
  | RegHandleMethod methods path h => HandleMethod app methods path h
  | RegGet path h => Get app path h
  | RegPost path h => Post app path h
  | RegPut path h => Put app path h
  | RegDelete path h => Delete app path h
  | RegPatch path h => Patch app path h
  | RegAny path h => Any app path h
  | RegUse mw => Use app mw
  | RegResource path resource => Resource app path resource
  end.

(** The calls made one after the other, on the same application. *)
Definition register (app : App) (cs : list Registration) : App :=
  fold_left register1 cs app.

(** The routes a call adds to the router, and the middleware it adds to the
    stack. *)
Definition routesOf (c : Registration) : list Route :=
  match c with
  | RegHandleMethod methods path h => [route methods path h]
  | RegGet path h => [route ["GET"] path h]
  | RegPost path h => [route ["POST"] path h]
  | RegPut path h => [route ["PUT"] path h]
  | RegDelete path h => [route ["DELETE"] path h]
  | RegPatch path h => [route ["PATCH"] path h]
  | RegAny path h => [route ["GET"; "POST"; "PUT"; "DELETE"; "PATCH"] path h]
  | RegUse _ => []
  | RegResource path r =>
      [ route ["GET"] path (List r);
        route ["GET"] (Path.Join [path; "/{id}"]) (Show r);
        route ["POST"] path (Create r);
        route ["PUT"] (Path.Join [path; "/{id}"]) (Update r);
        route ["DELETE"] (Path.Join [path; "/{id}"]) (Destroy r) ]
  end.

Definition middlewareOf (c : Registration) : list MiddlewareFunc :=
  match c with
  | RegUse mw => mw
  | _ => []
  end.

(** The static file route [NewApp] installs. *)
Definition staticRoute : Route :=
  {| route_path := "/public/"; route_isPrefix := true; route_methods := [];
     route_endpoint := StaticFiles "/public/" "./public/" |}.

(** The engine [NewApp] gives the application. *)
Definition engineFor (options : Options) : Engine :=
  match opt_tmplEngine options with
  | Some e => e
  | None => NewPongo2Engine "templates" ".html"
                            (String.eqb (env options) "development")
  end.

(** The steps of [Start] that follow a successful [Init]. *)
Definition webpackSteps (app : App) : list Step :=
  let dev := String.eqb (env (opts app)) "development" in
  if webpackEnabled (opts app)
  then WebpackInit dev :: (if dev then [GoStartWebpack] else [])
  else [].

(** The values the panic guard turns into an error with exactly their
    default text as message. *)
Definition plainText (v : GoValue) : bool :=
  match v with
  | VError _ | VInt _ | VBool _ => true
  | VString s => negb (Fmt.has_percent s)
  | VOther text => negb (Fmt.has_percent text)
  end.

(** *** Construction *)

Lemma App_eq (a b : App) :
  opts a = opts b -> muxRouter a = muxRouter b -> tmplEngine a = tmplEngine b ->
  stack (middleware a) = stack (middleware b) ->
  skips (middleware a) = skips (middleware b) ->
  routers a = routers b -> a = b.
Proof.
  destruct a as [oa ma ea [sa ka] ra], b as [ob mb eb [sb kb] rb]; simpl.
  intros; subst; reflexivity.
Qed.

(** [NewApp] ends the process in one case only: no session store supplied,
    no [SESSION_SECRET], production environment, and a logger to call.  It
    panics in one case only: no store, no secret, the production or the
    development environment, and a nil logger; the panic is the nil
    dereference of the log call, before anything is logged. *)
Theorem NewApp_exits_iff (getenv : string -> string) (options : Options) :
  ((exists t code, NewApp getenv options = (t, OsExit code)) <->
   (sessionStore options = None /\ getenv "SESSION_SECRET" = "" /\
    env options = "production" /\ logger options <> None)) /\
  ((exists t v, NewApp getenv options = (t, Panic v)) <->
   (sessionStore options = None /\ getenv "SESSION_SECRET" = "" /\
    (env options = "production" \/ env options = "development") /\
    logger options = None)) /\
  (forall t v, NewApp getenv options = (t, Panic v) ->
               t = [] /\ v = nilDereference).
Proof.
  unfold NewApp, setupSession. cbn [opts env sessionStore logger].
  destruct (sessionStore options) as [store|];
    [|destruct (String.eqb_spec (getenv "SESSION_SECRET") "") as [Hs|Hs];
      [destruct (String.eqb_spec (env options) "production") as [Hp|Hp];
       [|destruct (String.eqb_spec (env options) "development") as [Hd|Hd]]|]];
    destruct (logger options) as [l|]; simpl;
    (split; [split|split; [split|]]);
    try (intros (t & c & H); discriminate);
    try (intros t v H; discriminate);
    try (intros t v H; injection H as <- <-; split; reflexivity);
    try (intros (H1 & H2 & H3 & H4); try discriminate; try contradiction;
         try congruence; try (destruct H3; congruence));
    try (intros _; repeat split; auto; discriminate);
    try (eexists; eexists; reflexivity).
Qed.

(** A supplied session store is kept as it is, in every environment and
    whatever [SESSION_SECRET] holds: nothing is logged and the process goes
    on, in production without a secret too. *)
Theorem NewApp_keeps_supplied_store
        (getenv : string -> string) (options : Options) (store : SessionStore) :
  sessionStore options = Some store ->
  exists app,
    NewApp getenv options = ([], Done app) /\
    sessionStore (opts app) = Some store.
Proof.
  intros Hstore. unfold NewApp, setupSession. cbn [opts env sessionStore].
  rewrite Hstore. eexists. split; reflexivity.
Qed.

(** With no store supplied and a non-empty [SESSION_SECRET], the cookie
    store is keyed with that secret in every environment, and nothing is
    logged. *)
Theorem NewApp_uses_secret (getenv : string -> string) (options : Options) :
  sessionStore options = None ->
  getenv "SESSION_SECRET" <> "" ->
  exists app,
    NewApp getenv options = ([], Done app) /\
    sessionStore (opts app) = Some (CookieStore (getenv "SESSION_SECRET")).
Proof.
  intros Hstore Hsecret. unfold NewApp, setupSession.
  cbn [opts env sessionStore]. rewrite Hstore.
  apply String.eqb_neq in Hsecret. rewrite Hsecret.
  eexists. split; reflexivity.
Qed.

(** The application [NewApp] returns: the static file route is its only
    route, it has no middleware, no skip rule and no sub-router; its engine
    is the one supplied or else the pongo2 engine over ["templates"] and
    [".html"], reloading templates in development only; the other options
    are the ones given. *)
Theorem NewApp_fresh (getenv : string -> string) (options : Options)
        (t : list Step) (app : App) :
  NewApp getenv options = (t, Done app) ->
  muxRouter app = [staticRoute] /\
  stack (middleware app) = [] /\
  skips (middleware app) = nilSkips /\
  routers app = [] /\
  tmplEngine app = engineFor options /\
  opt_tmplEngine (opts app) = Some (engineFor options) /\
  env (opts app) = env options /\
  sessionName (opts app) = sessionName options /\
  logger (opts app) = logger options /\
  broker (opts app) = broker options /\
  webpackEnabled (opts app) = webpackEnabled options.
Proof.
  unfold NewApp, setupSession. cbn [opts env sessionStore].
  fold (engineFor options).
  destruct (sessionStore options) as [store|].
  { intros H. injection H as _ <-. repeat split. }
  destruct (String.eqb (getenv "SESSION_SECRET") "");
    [destruct (String.eqb (env options) "production");
     [|destruct (String.eqb (env options) "development")]|];
    try destruct (logger options) eqn:Hl; try discriminate;
    intros H; injection H as _ <-; repeat split; try assumption;
    cbn; now rewrite ?Hl.
Qed.

(** *** Start-up *)

(** When the template engine initializes, [Start] returns the application
    with the routes of its sub-routers materialized, after these steps: one
    [initRouterHandlers] per sub-router in order, the engine's [Init], and,
    if webpack is enabled, [webpack.Init] followed in the development
    environment only by the launch of the bundler process. *)
Theorem Start_succeeds (app : App) :
  let app' := fold_left initRouterHandlers (routers app) app in
  engine_Init (tmplEngine app') = None ->
  Init initRouterHandlers app =
    (map InitRouterHandlers (seq 0 (length (routers app))) ++
     [EngineInit (engine_name (tmplEngine app'))], Done app') /\
  Start initRouterHandlers app =
    (map InitRouterHandlers (seq 0 (length (routers app))) ++
     [EngineInit (engine_name (tmplEngine app'))] ++ webpackSteps app',
     Done app').
Proof.
  intros app' Hinit.
  assert (E : Init initRouterHandlers app =
    (map InitRouterHandlers (seq 0 (length (routers app))) ++
     [EngineInit (engine_name (tmplEngine app'))], Done app')).
  { unfold Init. rewrite initRouters_run. fold app'. simpl.
    rewrite Hinit. reflexivity. }
  split; [exact E|]. unfold Start. rewrite E. unfold webpackSteps, bind.
  destruct (webpackEnabled (opts app'));
    [destruct (String.eqb (env (opts app')) "development")|];
    simpl; rewrite <- ?app_assoc, ?app_nil_r; reflexivity.
Qed.

(** *** Requests *)

(** A request whose chain returns nil leaves the world as the chain left
    it: the dispatch function writes nothing of its own. *)
Theorem successful_request_untouched
        (app : App) (h : RouteHandler) (res : ResponseWriter) (req : Request)
        (w w1 : World) (session : Session) :
  getSession app res req = Ok session ->
  handle (middleware app) h (requestContext app res req session) w =
    (w1, Return None) ->
  dispatch app h res req w = (w1, None).
Proof.
  intros Hs Hh. rewrite (dispatch_chain _ _ _ _ _ _ Hs). unfold chain.
  now rewrite Hh.
Qed.

Lemma uint_no_percent (d : Decimal.uint) :
  Fmt.has_percent (NilEmpty.string_of_uint d) = false.
Proof. induction d; simpl; try rewrite IHd; reflexivity. Qed.

Lemma int_no_percent (n : Z) :
  Fmt.has_percent (NilZero.string_of_int (Z.to_int n)) = false.
Proof.
  assert (U : forall d, Fmt.has_percent (NilZero.string_of_uint d) = false).
  { intros d. destruct d; try apply uint_no_percent; reflexivity. }
  destruct (Z.to_int n) as [d|d]; simpl; [apply U|].
  rewrite U. reflexivity.
Qed.

(** The error the guard makes of a recovered value carries the value's
    default text as its message whenever the value is an error, an integer,
    a boolean, or has a text without ['%']. *)
Theorem recovered_message (v : GoValue) :
  Fmt.Sprintf0_ok Sprintf0 ->
  plainText v = true ->
  Error (recoverError v) = Sprint v.
Proof.
  intros [Hplain _] Hv.
  destruct v as [e|s|n|b|text]; simpl in *.
  - reflexivity.
  - apply negb_true_iff in Hv. now rewrite Hplain.
  - rewrite Hplain; [reflexivity|apply int_no_percent].
  - rewrite Hplain; [reflexivity|now destruct b].
  - apply negb_true_iff in Hv. now rewrite Hplain.
Qed.

(** *** Registration *)

Lemma register1_fields (app : App) (c : Registration) :
  opts (register1 app c) = opts app /\
  muxRouter (register1 app c) = muxRouter app ++ routesOf c /\
  tmplEngine (register1 app c) = tmplEngine app /\
  stack (middleware (register1 app c)) =
    stack (middleware app) ++ middlewareOf c /\
  skips (middleware (register1 app c)) = skips (middleware app) /\
  routers (register1 app c) = routers app.
Proof.
  destruct c; simpl; rewrite ?app_nil_r; repeat split;
    repeat rewrite <- app_assoc; reflexivity.
Qed.

(** The application after a sequence of calls is the one before it with
    the registrations of the calls added to the router and their middleware
    added to the stack, both in the order of the calls. *)
Lemma register_normal_form (cs : list Registration) (app : App) :
  register app cs =
  {| opts := opts app;
     muxRouter := muxRouter app ++ flat_map routesOf cs;
     tmplEngine := tmplEngine app;
     middleware :=
       {| stack := stack (middleware app) ++ flat_map middlewareOf cs;
          skips := skips (middleware app) |};
     routers := routers app |}.
Proof.
  revert app. induction cs as [|c cs IH]; intros app.
  - apply App_eq; simpl; rewrite ?app_nil_r; reflexivity.
  - cbn [register fold_left]. fold (register (register1 app c) cs).
    rewrite IH.
    destruct (register1_fields app c) as (Ho & Hm & He & Hs & Hk & Hr).
    apply App_eq; cbn [opts muxRouter tmplEngine middleware stack skips routers
                       flat_map]; rewrite ?Ho, ?Hm, ?He, ?Hs, ?Hk, ?Hr;
      rewrite <- ?app_assoc; reflexivity.
Qed.

(** Two sequences of registrations that add the same routes in the same
    order and the same middleware in the same order build the same
    application, however the calls of [Use] are interleaved with the
    registrations of routes. *)
Theorem register_interleaving (cs cs' : list Registration) (app : App) :
  flat_map routesOf cs = flat_map routesOf cs' ->
  flat_map middlewareOf cs = flat_map middlewareOf cs' ->
  register app cs = register app cs'.
Proof.
  intros Hr Hm. rewrite !register_normal_form. now rewrite Hr, Hm.
Qed.

Lemma dispatch_depends (a b : App) (h : RouteHandler) (res : ResponseWriter)
      (req : Request) (w : World) :
  opts a = opts b -> tmplEngine a = tmplEngine b -> middleware a = middleware b ->
  dispatch a h res req w = dispatch b h res req w.
Proof.
  destruct a, b; simpl. intros; subst. reflexivity.
Qed.


(** *** [Resource] and trailing slashes *)

Lemma clean_loop_slashes (k : nat) :
  forall fuel rest out dotdot,
    Path.clean_loop (k + fuel) true (repeat "/"%char k ++ rest) out dotdot =
    Path.clean_loop fuel true rest out dotdot.
Proof.
  induction k as [|k IH]; intros fuel rest out dotdot; [reflexivity|].
  cbn [repeat app Nat.add Path.clean_loop]. rewrite Ascii.eqb_refl. apply IH.
Qed.

Lemma at_sep_slashes (k : nat) (rest : list ascii) :
  Path.at_sep rest = true -> Path.at_sep (repeat "/"%char k ++ rest) = true.
Proof. destruct k; simpl; auto. Qed.

(** Joining ["/{id}"] to a rooted path of plain elements followed by any
    number of slashes yields the path without these slashes, followed by
    ["/{id}"]. *)
Lemma Join_id_trailing (elems : list (list ascii)) (k : nat) :
  elems <> [] ->
  Forall (fun e => Path.plain e = true) elems ->
  Path.Join [string_of_list_ascii (Path.rooted elems ++ repeat "/"%char k);
             "/{id}"] =
  (string_of_list_ascii (Path.rooted elems) ++ "/{id}")%string.
Proof.
  intros Hne Hall. destruct elems as [|e es]; [congruence|].
  inversion Hall as [|? ? He Hes]; subst.
  set (idc := list_ascii_of_string "{id}").
  assert (Hid : Path.plain idc = true) by reflexivity.
  assert (EJ : forall q, Path.Join [String "/" q; "/{id}"] =
                        Path.Clean (String "/" q ++ "/" ++ "/{id}")%string)
    by reflexivity.
  change (string_of_list_ascii (Path.rooted (e :: es) ++ repeat "/"%char k))
    with (String "/" (string_of_list_ascii
                        ((e ++ Path.rooted es) ++ repeat "/"%char k))).
  rewrite EJ.
  change (String "/" (string_of_list_ascii
                        ((e ++ Path.rooted es) ++ repeat "/"%char k)))
    with (string_of_list_ascii
            ("/"%char :: (e ++ Path.rooted es) ++ repeat "/"%char k)).
  change ("/{id}") with (string_of_list_ascii (Path.rooted [idc])).
  change ("/") with (string_of_list_ascii ["/"%char]).
  rewrite <- !string_of_list_ascii_app.
  change (("/"%char :: (e ++ Path.rooted es) ++ repeat "/"%char k) ++
          ["/"%char] ++ Path.rooted [idc])
    with ("/"%char :: ((e ++ Path.rooted es) ++ repeat "/"%char k) ++
          ["/"%char] ++ Path.rooted [idc]).
  rewrite Clean_rooted.
  set (l := ((e ++ Path.rooted es) ++ repeat "/"%char k) ++
            ["/"%char] ++ Path.rooted [idc]).
  assert (Hfuel : exists fuel,
             S (length l) = 2 * length es + (k + S (2 * 1 + fuel))).
  { pose proof (length_rooted es Hes) as Hlen.
    exists (length l - 2 * length es - k - 2). subst l.
    rewrite !length_app, repeat_length in *. simpl. lia. }
  destruct Hfuel as [fuel Hfuel].
  subst l. rewrite <- !app_assoc.
  rewrite clean_loop_element;
    [| exact He | apply at_sep_rooted, at_sep_slashes; reflexivity].
  rewrite <- !app_assoc in Hfuel. rewrite Hfuel.
  rewrite clean_loop_rooted by (auto using at_sep_slashes; apply at_sep_slashes; reflexivity).
  rewrite clean_loop_slashes.
  change (Path.clean_loop (S (2 * 1 + fuel)) true
            (["/"%char] ++ Path.rooted [idc])
            (fold_left Path.place es (Path.sep ["/"%char] ++ e)) 1)
    with (Path.clean_loop (2 * 1 + fuel) true
            (Path.rooted [idc] ++ [])
            (fold_left Path.place es (Path.sep ["/"%char] ++ e)) 1).
  change (2 * 1) with (2 * length [idc]).
  rewrite clean_loop_rooted by (auto; reflexivity).
  rewrite clean_loop_done.
  change (Path.sep ["/"%char] ++ e) with ("/"%char :: e).
  rewrite <- fold_left_app, fold_place_long.
  - destruct e as [|c e]; [discriminate|].
    unfold Path.rooted. rewrite flat_map_app. simpl.
    rewrite <- !app_assoc. reflexivity.
  - destruct e; [discriminate|]. simpl. lia.
Qed.

(** [Resource] on a rooted path of plain elements followed by slashes
    registers the collection routes (GET, POST) at the path as given, slashes
    included, and the item routes (GET, PUT, DELETE) at the path without
    them followed by ["/{id}"]. *)
Theorem Resource_trailing_slashes
        (app : App) (r : ResourceInterface) (elems : list (list ascii))
        (k : nat) :
  elems <> [] ->
  Forall (fun e => Path.plain e = true) elems ->
  let given := string_of_list_ascii (Path.rooted elems ++ repeat "/"%char k) in
  let clean := string_of_list_ascii (Path.rooted elems) in
  map (fun x => (route_methods x, route_path x))
      (skipn (length (muxRouter app)) (muxRouter (Resource app given r))) =
  [ (["GET"], given); (["GET"], (clean ++ "/{id}")%string);
    (["POST"], given); (["PUT"], (clean ++ "/{id}")%string);
    (["DELETE"], (clean ++ "/{id}")%string) ].
Proof.
  intros Hne Hall given clean.
  pose proof (Join_id_trailing elems k Hne Hall) as HJ. fold given clean in HJ.
  change (Resource app given r) with (register1 app (RegResource given r)).
  destruct (register1_fields app (RegResource given r)) as (_ & Hm & _).
  rewrite Hm, skipn_app, Nat.sub_diag, skipn_all.
  cbn [routesOf map Datatypes.app skipn route route_methods route_path].
  now rewrite HJ.
Qed.

End Setup.

(* ================================================================== *)
(** ** What gorilla's router keeps of a registration                  *)
(* ================================================================== *)

(** A route as the router holds it.  A route in the error state has no
    matcher and no handler and matches no request. *)
Inductive MuxRoute : Type :=
| ErrRoute
| OkRoute (template : string) (isPrefix : bool) (methods : list string)
          (endpoint : Endpoint).

(** The first test of [Route.Path] and [Route.PathPrefix]: a template that
    is not empty must start with a slash. *)
Definition leadingSlash (tpl : string) : bool :=
  match tpl with
  | EmptyString => true
  | String c _ => Ascii.eqb c "/"
  end.

(** A string of upper-case ASCII letters. *)
Fixpoint upperAscii (s : string) : bool :=
  match s with
  | EmptyString => true
  | String c rest =>
      (65 <=? nat_of_ascii c) && (nat_of_ascii c <=? 90) && upperAscii rest
  end.

(** Whether a path keeps clear of a leading slash: the invariant of the
    output buffer of [Clean] on a path that is not rooted. *)
Definition headNotSlash (out : list ascii) : bool :=
  match out with
  | [] => true
  | c :: _ => negb (Ascii.eqb c "/")
  end.

Section Mux.

Context {X : Externals}.

(** [strings.ToUpper], which [Route.Methods] applies to every method. *)
Variable ToUpper : string -> string.

(** Whether mux compiles a template that passed the test of the slash into
    a regexp (balanced braces, named variables, patterns that compile and
    hold no capturing group). *)
Variable templateOk : string -> bool.

(** What is used of [strings.ToUpper]: it leaves upper-case ASCII alone. *)
Definition ToUpper_ok : Prop :=
  forall s, upperAscii s = true -> ToUpper s = s.

(** A template the router takes. *)
Definition accepted (tpl : string) : bool :=
  leadingSlash tpl && templateOk tpl.

(** What the router keeps of a registration: an error-state route when the
    template fails the test of the slash (the calls of [Methods] and of the
    handler are then without effect); the route with its methods
    upper-cased when the template compiles.  What happens to a template
    that does not compile is not followed here ([None]). *)
Definition muxKeeps (r : Route) : option MuxRoute :=
  if negb (leadingSlash (route_path r)) then Some ErrRoute
  else if templateOk (route_path r) then
    Some (OkRoute (route_path r) (route_isPrefix r)
                  (map ToUpper (route_methods r)) (route_endpoint r))
  else None.

(** *** [path.Join] keeps a path without leading slash so *)

Lemma copy_element_head (c : ascii) (rest : list ascii) :
  Ascii.eqb c "/" = false ->
  exists e, fst (Path.copy_element (c :: rest)) = c :: e.
Proof.
  intros Hc. cbn [Path.copy_element]. rewrite Hc.
  destruct (Path.copy_element rest) as [e r]. now exists e.
Qed.

Lemma headNotSlash_firstn (w : nat) (out : list ascii) :
  headNotSlash out = true -> headNotSlash (firstn w out) = true.
Proof. destruct w, out; simpl; auto. Qed.

Lemma headNotSlash_app (out l : list ascii) :
  out <> [] -> headNotSlash out = true -> headNotSlash (out ++ l) = true.
Proof. destruct out; simpl; [congruence|auto]. Qed.

Lemma clean_loop_unrooted (fuel : nat) :
  forall path out dotdot,
    headNotSlash out = true ->
    headNotSlash (Path.clean_loop fuel false path out dotdot) = true.
Proof.
  induction fuel as [|fuel IH]; intros path out dotdot Hout; [exact Hout|].
  destruct path as [|c r1]; [exact Hout|].
  cbn [Path.clean_loop].
  destruct (Ascii.eqb c "/") eqn:Hc; [now apply IH|].
  destruct (Ascii.eqb c "." && Path.at_sep r1)%bool; [now apply IH|].
  destruct (Ascii.eqb c "." &&
            match r1 with
            | c2 :: r2 => Ascii.eqb c2 "." && Path.at_sep r2
            | [] => false
            end)%bool.
  - destruct (dotdot <? length out).
    + apply IH. now apply headNotSlash_firstn.
    + cbn [negb]. apply IH. destruct out as [|c0 out]; [reflexivity|].
      cbn [length Nat.ltb Nat.leb]. exact Hout.
  - destruct (copy_element_head c r1 Hc) as [e He].
    destruct (Path.copy_element (c :: r1)) as [e' rest] eqn:Hcopy.
    cbn [fst] in He. subst e'. apply IH.
    destruct out as [|c0 out]; cbn [length Nat.eqb negb andb orb app].
    + cbn [headNotSlash]. now rewrite Hc.
    + exact Hout.
Qed.

Lemma leadingSlash_string_of_list (l : list ascii) :
  l <> [] -> headNotSlash l = true ->
  leadingSlash (string_of_list_ascii l) = false.
Proof.
  destruct l as [|c l]; [congruence|]. simpl. intros _ H.
  now apply negb_true_iff in H.
Qed.

(** The item path of a path that is not empty and has no leading slash has
    no leading slash either. *)
Lemma Join_unrooted (p : string) :
  leadingSlash p = false ->
  leadingSlash (Path.Join [p; "/{id}"]) = false.
Proof.
  destruct p as [|c p]; [discriminate|]. cbn [leadingSlash]. intros Hc.
  cbn [Path.Join String.eqb String.concat]. unfold Path.Clean.
  cbn [list_ascii_of_string String.append]. rewrite Hc.
  match goal with
  | |- context [Path.clean_loop ?f false ?l [] 0] =>
      pose proof (clean_loop_unrooted f l [] 0 eq_refl) as H;
      destruct (Path.clean_loop f false l [] 0) as [|c0 out]
  end; [reflexivity|].
  apply leadingSlash_string_of_list; [discriminate|exact H].
Qed.

(** *** The routes of a resource *)

(** C7 (as amended).  [Resource(p, r)] makes exactly five registrations on
    the router, after the ones made before and in this order: GET p for
    [List], GET q for [Show], POST p for [Create], PUT q for [Update] and
    DELETE q for [Destroy], where the item path q is [path.Join(p, "/{id}")]:
    p followed by ["/{id}"] when p is a rooted path of plain elements, and
    in general the cleaned join.  Nothing else of the application changes,
    and a later call leaves the registrations of an earlier one as they
    are and ahead of its own.  When the router takes p and q as templates
    it keeps the five routes with these paths, methods and handlers; when p
    is not empty and lacks the leading slash it keeps five routes in the
    error state, which bind nothing. *)
Theorem Resource_registers (app : App) (p : string) (r : ResourceInterface) :
  ToUpper_ok ->
  let q := Path.Join [p; "/{id}"] in
  let added :=
    [ route ["GET"] p (List r); route ["GET"] q (Show r);
      route ["POST"] p (Create r); route ["PUT"] q (Update r);
      route ["DELETE"] q (Destroy r) ] in
  muxRouter (Resource app p r) = muxRouter app ++ added /\
  opts (Resource app p r) = opts app /\
  tmplEngine (Resource app p r) = tmplEngine app /\
  middleware (Resource app p r) = middleware app /\
  routers (Resource app p r) = routers app /\
  (forall p' r',
    firstn (length (muxRouter (Resource app p r)))
           (muxRouter (Resource (Resource app p r) p' r')) =
    muxRouter (Resource app p r)) /\
  (forall elems,
    elems <> [] -> Forall (fun e => Path.plain e = true) elems ->
    p = string_of_list_ascii (Path.rooted elems) ->
    q = (p ++ "/{id}")%string) /\
  (accepted p = true -> accepted q = true ->
   map muxKeeps added =
   [ Some (OkRoute p false ["GET"] (Dispatch (List r)));
     Some (OkRoute q false ["GET"] (Dispatch (Show r)));
     Some (OkRoute p false ["POST"] (Dispatch (Create r)));
     Some (OkRoute q false ["PUT"] (Dispatch (Update r)));
     Some (OkRoute q false ["DELETE"] (Dispatch (Destroy r))) ]) /\
  (leadingSlash p = false ->
   map muxKeeps added =
   [Some ErrRoute; Some ErrRoute; Some ErrRoute; Some ErrRoute; Some ErrRoute]).
Proof.
  intros Hupper q added.
  destruct (Resource_routes app p r)
    as (Hm & _ & Ho & He & Hmw & Hr & Hfirst & Hplain).
  repeat split; try assumption.
  - intros Hp Hq. unfold accepted in Hp, Hq.
    apply andb_true_iff in Hp, Hq. destruct Hp as [Hp1 Hp2], Hq as [Hq1 Hq2].
    unfold added, muxKeeps, route. cbn [map route_path route_isPrefix
                                        route_methods route_endpoint].
    rewrite Hp1, Hp2, Hq1, Hq2. cbn [negb].
    rewrite (Hupper "GET" eq_refl), (Hupper "POST" eq_refl),
      (Hupper "PUT" eq_refl), (Hupper "DELETE" eq_refl).
    reflexivity.
  - intros Hp. pose proof (Join_unrooted p Hp) as Hq. fold q in Hq.
    unfold added, muxKeeps, route. cbn [map route_path route_isPrefix
                                        route_methods route_endpoint].
    rewrite Hp, Hq. reflexivity.
Qed.

(** *** The router after a sequence of calls *)

Lemma map_flat_map {A B C : Type} (f : B -> C) (g : A -> list B) (l : list A) :
  map f (flat_map g l) = flat_map (fun a => map f (g a)) l.
Proof.
  induction l as [|a l IH]; simpl; [reflexivity|].
  now rewrite map_app, IH.
Qed.

(** After any sequence of calls of the registration methods, the router
    keeps what it kept before and, after it, what it keeps of the
    registrations of each call, in the order of the calls and of the
    registrations within a call: a route with upper-cased methods where it
    takes the path, an error-state route where the path lacks the leading
    slash.  The options, the engine, the skip rules and the sub-routers are
    untouched, and the middleware of the calls is added to the stack in
    their order. *)
Theorem router_after_registrations (cs : list Registration) (app : App) :
  map muxKeeps (muxRouter (register app cs)) =
    map muxKeeps (muxRouter app) ++
    flat_map (fun c => map muxKeeps (routesOf c)) cs /\
  (forall methods path h,
    muxKeeps (route methods path h) =
    if negb (leadingSlash path) then Some ErrRoute
    else if templateOk path
         then Some (OkRoute path false (map ToUpper methods) (Dispatch h))
         else None) /\
  stack (middleware (register app cs)) =
    stack (middleware app) ++ flat_map middlewareOf cs /\
  skips (middleware (register app cs)) = skips (middleware app) /\
  opts (register app cs) = opts app /\
  tmplEngine (register app cs) = tmplEngine app /\
  routers (register app cs) = routers app.
Proof.
  rewrite register_normal_form. cbn [muxRouter middleware stack skips opts
                                     tmplEngine routers].
  rewrite map_app, map_flat_map. repeat split.
Qed.

End Mux.


(** *** The properties at work in the sample setting *)

#[local] Existing Instance Sample.externals.

Lemma recoverError_string_percent_sample :
  Error (recoverError (VString "100%")) = "100%!(NOVERB)" /\
  Error (recoverError (VString "100%")) <> "100%".
Proof.
  apply (recoverError_string_percent (X := Sample.externals)).
  exact sprintf0_ok.
Defined.




(** Three middleware registered in two calls of [Use]. *)
Lemma middleware_order_sample :
  handle (middleware
            (UseAll (Sample.app "production")
                    [ [around "M1-pre" "M1-post"];
                      [around "M2-pre" "M2-post"; around "M3-pre" "M3-post"] ]))
         Sample.ok Sample.context [] =
  ([Effect "M1-pre"; Effect "M2-pre"; Effect "M3-pre"; Effect "handler";
    Effect "M3-post"; Effect "M2-post"; Effect "M1-post"], Return None).
Proof.
  destruct (middleware_order (X := Sample.externals)
              (Sample.app "production")
              [ [around "M1-pre" "M1-post"];
                [around "M2-pre" "M2-post"; around "M3-pre" "M3-post"] ]
              Sample.ok eq_refl (fun _ => eq_refl)) as [_ H].
  exact (H [("M1-pre", "M1-post"); ("M2-pre", "M2-post"); ("M3-pre", "M3-post")]
           Sample.context [] [Effect "handler"] eq_refl eq_refl).
Defined.




(** A handler that panics with the string ["kaboom"]: status 500 and, in
    development, the diagnostic page for an error with that message; in
    production status 500 alone. *)
Example kaboom :
  dispatch (Sample.app "development")
           (panicking (fun _ w => (w, Some (VString "kaboom"))))
           1 Sample.request [] =
    ([WriteHeader 1 500;
      RenderDevelopmentError 1 Sample.request (ErrorString "kaboom")], None) /\
  dispatch (Sample.app "production")
           (panicking (fun _ w => (w, Some (VString "kaboom"))))
           1 Sample.request [] =
    ([WriteHeader 1 500], None).
Proof. split; reflexivity. Qed.

(** The five routes of [Resource("/widgets", r)]. *)
Lemma Resource_widgets :
  map (fun r => (route_methods r, route_path r))
      (muxRouter (Resource (Sample.app "production") "/widgets" Sample.widgets)) =
  [ (["GET"], "/widgets"); (["GET"], "/widgets/{id}"); (["POST"], "/widgets");
    (["PUT"], "/widgets/{id}"); (["DELETE"], "/widgets/{id}") ].
Proof. reflexivity. Qed.

(** No secret in the environment, a logger configured: fatal in production,
    a warning and the development secret in development. *)
Lemma missing_secret_sample :
  boot Sample.initRouterHandlers Sample.noSecret (Sample.options "production") =
    ([LoggerFatalf "Missing a required environment variable: SESSION_SECRET"],
     OsExit 1) /\
  exists app,
    NewApp Sample.noSecret (Sample.options "development") =
      ([LoggerWarn "You will need to setup a SESSION_SECRET in production mode."],
       Done app) /\
    sessionStore (opts app) = Some (CookieStore "development-secret").
Proof.
  split.
  - destruct (missing_secret (X := Sample.externals) Sample.initRouterHandlers
                Sample.noSecret (Sample.options "production")
                eq_refl eq_refl) as [H _].
    destruct H as [H _]; [discriminate|].
    destruct (H eq_refl) as [_ Hboot]. exact Hboot.
  - destruct (missing_secret (X := Sample.externals) Sample.initRouterHandlers
                Sample.noSecret (Sample.options "development")
                eq_refl eq_refl) as [H _].
    destruct H as [_ H]; [discriminate|].
    exact (H eq_refl).
Defined.

(** Development options without a logger. *)
Definition developmentNoLogger : Options :=
  {| env := "development"; sessionStore := None; sessionName := "zsid";
     logger := None; broker := None; webpackEnabled := false;
     opt_tmplEngine := None |}.

(** C6 (as stated) fails.  In the development environment with no store,
    no secret and a nil logger, constructing the application does not
    succeed: the call of [logger.Warn] panics and nothing is logged. *)
Lemma missing_secret_nil_logger :
  NewApp Sample.noSecret developmentNoLogger = ([], Panic nilDereference) /\
  ~ exists app,
      NewApp Sample.noSecret developmentNoLogger =
        ([LoggerWarn "You will need to setup a SESSION_SECRET in production mode."],
         Done app).
Proof.
  split; [reflexivity|]. intros [app H]. discriminate H.
Qed.

(** The environment ["staging"] with no secret. *)
Lemma other_environment_empty_secret_sample :
  setupSession Sample.noSecret Sample.staging =
  ([], Done
    {| opts := {| env := "staging"; sessionStore := Some (CookieStore "");
                  sessionName := "zsid"; logger := Some 0; broker := None;
                  webpackEnabled := true; opt_tmplEngine := None |};
       muxRouter := [];
       tmplEngine := {| engine_name := "pongo2"; engine_Init := None |};
       middleware := {| stack := []; skips := nilSkips |}; routers := [] |}).
Proof.
  destruct (other_environment_empty_secret (X := Sample.externals)
              Sample.noSecret Sample.staging eq_refl eq_refl) as [H _].
  - discriminate.
  - discriminate.
  - exact H.
Defined.

(** An engine that fails to initialize, with one sub-router registered. *)
Lemma Init_engine_failure_sample :
  Start Sample.initRouterHandlers Sample.withBrokenEngine =
  ([InitRouterHandlers 0; EngineInit "broken"], Panic (VError Sample.boom)).
Proof.
  destruct (Init_engine_failure (X := Sample.externals)
              Sample.initRouterHandlers Sample.withBrokenEngine
              Sample.boom eq_refl) as [HInit HStart].
  rewrite HStart. exact HInit.
Defined.

(** A store whose [Get] fails: the request is served all the same. *)
Lemma session_error_discarded_sample :
  dispatch Sample.withBrokenStore Sample.ok 1 Sample.request [] =
  ([Effect "handler"], None).
Proof.
  destruct (session_error_discarded (X := Sample.externals)
              Sample.withBrokenStore Sample.brokenStore Sample.ok
              1 Sample.request [] eq_refl) as [_ [_ H]].
  exact H.
Defined.

(** *** Construction, start-up and registration in the sample setting *)

(** An environment that holds a session secret. *)
Definition withSecret : string -> string :=
  fun name => if String.eqb name "SESSION_SECRET" then "s3cret" else "".

(** Production options that come with a session store. *)
Definition productionWithStore : Options :=
  {| env := "production"; sessionStore := Some Sample.brokenStore;
     sessionName := "zsid"; logger := Some 0; broker := None;
     webpackEnabled := false; opt_tmplEngine := None |}.

(** What [NewApp] builds in development when no secret is set. *)
Definition developmentApp : App :=
  {| opts := {| env := "development";
                sessionStore := Some (CookieStore "development-secret");
                sessionName := "zsid"; logger := Some 0; broker := None;
                webpackEnabled := true;
                opt_tmplEngine :=
                  Some {| engine_name := "pongo2"; engine_Init := None |} |};
     muxRouter := [staticRoute];
     tmplEngine := {| engine_name := "pongo2"; engine_Init := None |};
     middleware := {| stack := []; skips := nilSkips |};
     routers := [] |}.

(** A development application with one sub-router and webpack enabled. *)
Definition withRouter : App :=
  {| opts := Sample.options "development"; muxRouter := [staticRoute];
     tmplEngine := {| engine_name := "pongo2"; engine_Init := None |};
     middleware := {| stack := []; skips := nilSkips |};
     routers := [Sample.aRouter] |}.

Lemma NewApp_keeps_supplied_store_sample :
  exists app,
    NewApp Sample.noSecret productionWithStore = ([], Done app) /\
    sessionStore (opts app) = Some Sample.brokenStore.
Proof.
  exact (NewApp_keeps_supplied_store (X := Sample.externals)
           Sample.noSecret productionWithStore Sample.brokenStore eq_refl).
Defined.

Lemma NewApp_uses_secret_sample :
  exists app,
    NewApp withSecret (Sample.options "production") = ([], Done app) /\
    sessionStore (opts app) = Some (CookieStore "s3cret").
Proof.
  apply (NewApp_uses_secret (X := Sample.externals)
           withSecret (Sample.options "production") eq_refl).
  discriminate.
Defined.

Lemma NewApp_fresh_sample :
  muxRouter developmentApp = [staticRoute] /\
  stack (middleware developmentApp) = [] /\
  skips (middleware developmentApp) = nilSkips /\
  routers developmentApp = [] /\
  tmplEngine developmentApp = engineFor (Sample.options "development").
Proof.
  destruct (NewApp_fresh (X := Sample.externals)
              Sample.noSecret (Sample.options "development")
              [LoggerWarn "You will need to setup a SESSION_SECRET in production mode."]
              developmentApp eq_refl)
    as (H1 & H2 & H3 & H4 & H5 & _).
  repeat split; assumption.
Defined.

Lemma Start_succeeds_sample :
  Start Sample.initRouterHandlers withRouter =
  ([InitRouterHandlers 0; EngineInit "pongo2"; WebpackInit true; GoStartWebpack],
   Done (HandleMethod withRouter ["GET"] "/a" Sample.ok)).
Proof.
  destruct (Start_succeeds (X := Sample.externals)
              Sample.initRouterHandlers withRouter eq_refl) as [_ H].
  exact H.
Defined.

Lemma successful_request_untouched_sample :
  dispatch (Sample.app "production") Sample.ok 1 Sample.request [] =
  ([Effect "handler"], None).
Proof.
  exact (successful_request_untouched (X := Sample.externals)
           (Sample.app "production") Sample.ok 1 Sample.request []
           [Effect "handler"]
           {| gSession := {| gs_name := "zsid"; gs_Values := [];
                             gs_IsNew := false |};
              session_req := Sample.request; session_res := 1 |}
           eq_refl eq_refl).
Defined.

Lemma recovered_message_sample :
  Error (recoverError (VInt (-42))) = "-42".
Proof.
  apply (recovered_message (X := Sample.externals) (VInt (-42))).
  - exact sprintf0_ok.
  - reflexivity.
Defined.

Lemma register_interleaving_sample :
  register (Sample.app "production")
           [RegUse [before "log"]; RegGet "/x" Sample.ok] =
  register (Sample.app "production")
           [RegGet "/x" Sample.ok; RegUse [before "log"]].
Proof.
  apply (register_interleaving (X := Sample.externals)); reflexivity.
Defined.


Lemma Resource_trailing_slashes_sample :
  map (fun x => (route_methods x, route_path x))
      (muxRouter (Resource (Sample.app "production") "/widgets//"
                           Sample.widgets)) =
  [ (["GET"], "/widgets//"); (["GET"], "/widgets/{id}");
    (["POST"], "/widgets//"); (["PUT"], "/widgets/{id}");
    (["DELETE"], "/widgets/{id}") ].
Proof.
  apply (Resource_trailing_slashes (X := Sample.externals)
           (Sample.app "production") Sample.widgets
           [list_ascii_of_string "widgets"] 2).
  - discriminate.
  - repeat constructor.
Defined.

(** *** The router in the sample setting *)

(** Upper-casing of ASCII letters. *)
Definition upperChar (c : ascii) : ascii :=
  let n := nat_of_ascii c in
  if (97 <=? n) && (n <=? 122) then ascii_of_nat (n - 32) else c.

Fixpoint asciiToUpper (s : string) : string :=
  match s with
  | EmptyString => EmptyString
  | String c rest => String (upperChar c) (asciiToUpper rest)
  end.

(** Templates with balanced braces. *)
Fixpoint balancedFrom (depth : nat) (s : string) : bool :=
  match s with
  | EmptyString => depth =? 0
  | String c rest =>
      if Ascii.eqb c "{" then balancedFrom (S depth) rest
      else if Ascii.eqb c "}" then
        match depth with
        | O => false
        | S d => balancedFrom d rest
        end
      else balancedFrom depth rest
  end.

Definition bracesBalanced : string -> bool := balancedFrom 0.

Lemma asciiToUpper_ok : ToUpper_ok asciiToUpper.
Proof.
  intros s. induction s as [|c s IH]; simpl; [reflexivity|].
  intros H. apply andb_true_iff in H. destruct H as [H Hs].
  apply andb_true_iff in H. destruct H as [_ H90].
  apply Nat.leb_le in H90. unfold upperChar.
  destruct (Nat.leb_spec 97 (nat_of_ascii c)) as [H97|_]; [lia|].
  simpl. now rewrite IH.
Qed.

(** The five routes the router keeps of [Resource("/widgets", r)]. *)
Lemma Resource_registers_sample :
  map (muxKeeps asciiToUpper bracesBalanced)
      (muxRouter (Resource (Sample.app "production") "/widgets" Sample.widgets)) =
  [ Some (OkRoute "/widgets" false ["GET"] (Dispatch (List Sample.widgets)));
    Some (OkRoute "/widgets/{id}" false ["GET"] (Dispatch (Show Sample.widgets)));
    Some (OkRoute "/widgets" false ["POST"] (Dispatch (Create Sample.widgets)));
    Some (OkRoute "/widgets/{id}" false ["PUT"] (Dispatch (Update Sample.widgets)));
    Some (OkRoute "/widgets/{id}" false ["DELETE"]
                  (Dispatch (Destroy Sample.widgets))) ].
Proof.
  destruct (Resource_registers (X := Sample.externals)
              asciiToUpper bracesBalanced
              (Sample.app "production") "/widgets" Sample.widgets
              asciiToUpper_ok)
    as (Hm & _ & _ & _ & _ & _ & _ & Hok & _).
  rewrite Hm. exact (Hok eq_refl eq_refl).
Defined.

(** C7 (as stated) fails.  The item path is not always p followed by
    ["/{id}"]: for ["/a/../b"] it is ["/b/{id}"], while the collection
    routes stay at ["/a/../b"].  Two distinct paths can collide: ["/a"] and
    ["/a/"] register their item routes at the same path.  And a path
    without leading slash is bound to no handler at all: the router keeps
    five routes in the error state. *)
Lemma Resource_item_path_cleaned :
  map route_path
      (muxRouter (Resource (Sample.app "production") "/a/../b" Sample.widgets)) =
    ["/a/../b"; "/b/{id}"; "/a/../b"; "/b/{id}"; "/b/{id}"] /\
  Path.Join ["/a/../b"; "/{id}"] <> ("/a/../b" ++ "/{id}")%string /\
  map (fun x => (route_methods x, route_path x))
      (muxRouter (Resource (Resource (Sample.app "production") "/a" Sample.widgets)
                           "/a/" Sample.widgets)) =
    [ (["GET"], "/a"); (["GET"], "/a/{id}"); (["POST"], "/a");
      (["PUT"], "/a/{id}"); (["DELETE"], "/a/{id}");
      (["GET"], "/a/"); (["GET"], "/a/{id}"); (["POST"], "/a/");
      (["PUT"], "/a/{id}"); (["DELETE"], "/a/{id}") ] /\
  map (muxKeeps asciiToUpper bracesBalanced)
      (muxRouter (Resource (Sample.app "production") "widgets" Sample.widgets)) =
    [Some ErrRoute; Some ErrRoute; Some ErrRoute; Some ErrRoute; Some ErrRoute].
Proof.
  repeat split. vm_compute. discriminate.
Qed.

End Web.
